(** * generate_image.py: provider selection, credentials and file naming

    A shallow embedding of [generate_image.py] (the command-line image
    generator that calls the HuggingFace inference API or the OpenAI DALL-E
    API and saves the picture to a file) together with the properties its
    specification states about it.

    Layout of the file:
    - [Py]      Python strings (lists of code points), the string methods
                the script uses, and the values [json.load] can produce;
    - [Eff]     a state-and-exception monad: Python exceptions, [try] /
                [except Exception], [sys.exit];
    - [Script]  the script itself: [load_api_keys],
                [generate_image_huggingface], [generate_image_openai],
                [main];
    - [Spec]    the properties of the specification, in its own words;
    - [Examples] a few concrete worlds and command lines;
    - the lemmas and theorems. *)

From Stdlib Require Import ZArith NArith String Ascii Lia.
From stdpp Require Import gmap strings list fin_maps.

Set Warnings "-register-all".
Local Open Scope N_scope.

(* ===================================================================== *)
(** ** Python strings and values                                          *)
(* ===================================================================== *)

Module Py.

(** A Python [str] is a sequence of Unicode code points: [prompt[:50]]
    counts code points, and [c.isascii()] looks at one of them. *)
Abbreviation pystr := (list N).

(** [bytes] objects. *)
Abbreviation pybytes := (list Byte.byte).

(** String literals of the script are written as in the source and decoded
    from UTF-8. *)
Fixpoint utf8_decode (bs : list N) : pystr :=
  match bs with
  | [] => []
  | b :: r =>
    if b <? 128 then b :: utf8_decode r else
    match r with
    | [] => []
    | c1 :: r1 =>
      if b <? 224 then
        N.lor (N.shiftl (N.land b 31) 6) (N.land c1 63) :: utf8_decode r1
      else
      match r1 with
      | [] => []
      | c2 :: r2 =>
        if b <? 240 then
          N.lor (N.shiftl (N.land b 15) 12)
            (N.lor (N.shiftl (N.land c1 63) 6) (N.land c2 63)) :: utf8_decode r2
        else
        match r2 with
        | [] => []
        | c3 :: r3 =>
          N.lor (N.shiftl (N.land b 7) 18)
            (N.lor (N.shiftl (N.land c1 63) 12)
               (N.lor (N.shiftl (N.land c2 63) 6) (N.land c3 63)))
            :: utf8_decode r3
        end
      end
    end
  end.

Fixpoint bytes_of_string (s : string) : list N :=
  match s with
  | EmptyString => []
  | String a r => N_of_ascii a :: bytes_of_string r
  end.

Definition u (s : string) : pystr := utf8_decode (bytes_of_string s).
Global Arguments u : simpl never.

(** The double quote, for the lines the script prints with quotes inside. *)
Definition dq : pystr := [34].

(** *** Character classes *)

Definition isascii (c : N) : bool := c <? 128.

(** [c.isalnum()] on an ASCII character: a digit or a letter. The script
    only asks it after [c.isascii()]. *)
Definition ascii_isalnum (c : N) : bool :=
  ((48 <=? c) && (c <=? 57)) || ((65 <=? c) && (c <=? 90))
  || ((97 <=? c) && (c <=? 122)).

(** The characters [str.strip()] removes: those for which [str.isspace()]
    holds. *)
Definition isspace (c : N) : bool :=
  ((9 <=? c) && (c <=? 13)) || ((28 <=? c) && (c <=? 32))
  || (c =? 133) || (c =? 160) || (c =? 5760)
  || ((8192 <=? c) && (c <=? 8202))
  || (c =? 8232) || (c =? 8233) || (c =? 8239) || (c =? 8287) || (c =? 12288).

(** *** String methods *)

Fixpoint lstrip (s : pystr) : pystr :=
  match s with
  | c :: r => if isspace c then lstrip r else s
  | [] => []
  end.

Definition rstrip (s : pystr) : pystr := rev (lstrip (rev s)).

(** [s.strip()] *)
Definition strip (s : pystr) : pystr := rstrip (lstrip s).

(** [s.startswith(p)] *)
Fixpoint startswith (s p : pystr) {struct p} : bool :=
  match p, s with
  | [], _ => true
  | a :: p', b :: s' => (a =? b) && startswith s' p'
  | _ :: _, [] => false
  end.

(** [p in s] for two strings: [p] occurs in [s]. *)
Fixpoint contains (s p : pystr) : bool :=
  startswith s p || match s with [] => false | _ :: s' => contains s' p end.

(** [s.replace(a, b)] for one-character [a] and [b]. *)
Definition replace (a b : N) (s : pystr) : pystr :=
  map (fun c => if c =? a then b else c) s.

(** [s.split(sep, 1)] for a one-character separator: the string cut at the
    first [sep], or the string alone when there is none. *)
Fixpoint split1 (sep : N) (s : pystr) : list pystr :=
  match s with
  | [] => [[]]
  | c :: r =>
    if c =? sep then [[]; r]
    else match split1 sep r with
         | h :: t => (c :: h) :: t
         | [] => [[c]]
         end
  end.

(** [s[:n]] *)
Definition prefix (n : nat) (s : pystr) : pystr := take n s.

(** *** Values

    What [json.load], [os.getenv] and [dict.get] hand to the script. A float
    is kept only up to what [or] and [if] ask of it: whether it is zero. *)
Inductive pyval :=
  | PNone
  | PBool (b : bool)
  | PInt (z : Z)
  | PFloat (nonzero : bool)
  | PStr (s : pystr)
  | PList (l : list pyval)
  | PDict (d : gmap pystr pyval).

(** Truth value of an object, as [if v:] and [v or w] test it. *)
Definition truthy (v : pyval) : bool :=
  match v with
  | PNone => false
  | PBool b => b
  | PInt z => negb (z =? 0)%Z
  | PFloat nonzero => nonzero
  | PStr s => match s with [] => false | _ => true end
  | PList l => match l with [] => false | _ => true end
  | PDict d => negb (size d =? 0)%nat
  end.

(** [a or b] when evaluating [b] has no effect. *)
Definition py_or (a b : pyval) : pyval := if truthy a then a else b.

(** [a or b1 or ... or bn], left to right. *)
Fixpoint or_list (a : pyval) (l : list pyval) : pyval :=
  match l with
  | [] => a
  | b :: r => or_list (py_or a b) r
  end.

(** [v == s] for a string [s]. *)
Definition eq_str (s : pystr) (v : pyval) : bool :=
  match v with
  | PStr t => bool_decide (t = s)
  | _ => false
  end.

End Py.
Export Py.

(* ===================================================================== *)
(** ** Exceptions and effects                                             *)
(* ===================================================================== *)

Module Eff.

(** An exception the script's [except Exception] clauses catch: its class
    name and [str(e)]. *)
Record error := Error { err_class : string; err_msg : pystr }.

(** What can be raised: [sys.exit(code)] raises [SystemExit], which
    [except Exception] does not catch. *)
Inductive exn :=
  | SystemExit (code : Z)
  | Exception (e : error).

(** Computations over a mutable state [S] that may raise. The state reached
    when the exception is raised is kept: Python does not roll back. *)
Definition M (S A : Type) : Type := S -> (exn + A) * S.

Definition ret {S A} (a : A) : M S A := fun s => (inr a, s).

Definition bind {S A B} (m : M S A) (k : A -> M S B) : M S B :=
  fun s =>
    match m s with
    | (inr a, s') => k a s'
    | (inl e, s') => (inl e, s')
    end.

Definition raise {S A} (e : exn) : M S A := fun s => (inl e, s).

Definition get {S} : M S S := fun s => (inr s, s).

Definition modify {S} (f : S -> S) : M S unit := fun s => (inr tt, f s).

(** [try: body except Exception as e: handler(e)] *)
Definition try_except {S A} (body : M S A) (handler : error -> M S A) : M S A :=
  fun s =>
    match body s with
    | (inl (Exception e), s') => handler e s'
    | r => r
    end.

(** The result of a call that the outside world answers: it returns or it
    raises an ordinary exception. *)
Definition lift {S A} (r : error + A) : M S A :=
  match r with
  | inl e => raise (Exception e)
  | inr a => ret a
  end.

(** [sys.exit(code)] *)
Definition sys_exit {S A} (code : Z) : M S A := raise (SystemExit code).

(** [for x in l: body(x)] *)
Fixpoint for_each {S A} (l : list A) (body : A -> M S unit) : M S unit :=
  match l with
  | [] => ret tt
  | x :: r => bind (body x) (fun _ => for_each r body)
  end.

(** [if c: body] without [else] *)
Definition when {S} (c : bool) (body : M S unit) : M S unit :=
  if c then body else ret tt.

Declare Scope py_scope.
Delimit Scope py_scope with py.
Notation "x <- m ;; k" := (bind m (fun x => k))
  (at level 100, m at next level, right associativity) : py_scope.
Notation "m ;; k" := (bind m (fun _ => k))
  (at level 100, right associativity) : py_scope.

End Eff.
Export Eff.
Local Open Scope py_scope.

(* ===================================================================== *)
(** ** The script                                                         *)
(* ===================================================================== *)

Module Script.

(** *** Operations on values that may raise

    The exceptions carry the messages of CPython 3.12. *)

Section Operations.
Context {S : Type}.

Definition TypeError (msg : pystr) : exn := Exception (Error "TypeError" msg).
Definition AttributeError (msg : pystr) : exn :=
  Exception (Error "AttributeError" msg).
Definition KeyError (msg : pystr) : exn := Exception (Error "KeyError" msg).
Definition IndexError (msg : pystr) : exn := Exception (Error "IndexError" msg).

Definition type_name (v : pyval) : pystr :=
  match v with
  | PNone => u "NoneType"
  | PBool _ => u "bool"
  | PInt _ => u "int"
  | PFloat _ => u "float"
  | PStr _ => u "str"
  | PList _ => u "list"
  | PDict _ => u "dict"
  end.

(** [a or b], where [b] is evaluated only when [a] is false. *)
Definition or_else (a : pyval) (b : M S pyval) : M S pyval :=
  if truthy a then ret a else b.

(** [k in c] for a string [k]: a key of a dict, an item of a list, a
    substring of a string; other objects are not containers. *)
Definition py_in (k : pystr) (c : pyval) : M S bool :=
  match c with
  | PDict d => ret (bool_decide (is_Some (d !! k)))
  | PList l => ret (existsb (eq_str k) l)
  | PStr s => ret (contains s k)
  | _ => raise (TypeError (u "argument of type '" ++ type_name c
                             ++ u "' is not iterable"))
  end.

(** [c[k]] for a string [k]. *)
Definition py_getitem (c : pyval) (k : pystr) : M S pyval :=
  match c with
  | PDict d =>
    match d !! k with
    | Some v => ret v
    | None => raise (KeyError (u "'" ++ k ++ u "'"))
    end
  | PList _ => raise (TypeError (u "list indices must be integers or slices, not str"))
  | PStr _ => raise (TypeError (u "string indices must be integers, not 'str'"))
  | _ => raise (TypeError (u "'" ++ type_name c ++ u "' object is not subscriptable"))
  end.

(** [o.get(k, default)]: only a dict has the method. *)
Definition py_get (o : pyval) (k : pystr) (default : pyval) : M S pyval :=
  match o with
  | PDict d => ret (match d !! k with Some v => v | None => default end)
  | _ => raise (AttributeError (u "'" ++ type_name o
                                  ++ u "' object has no attribute 'get'"))
  end.

(** [l[i]] on a list. *)
Definition py_index {A} (l : list A) (i : nat) : M S A :=
  match l !! i with
  | Some x => ret x
  | None => raise (IndexError (u "list index out of range"))
  end.
End Operations.

(** *** Credentials: [load_api_keys] *)

(** The [keys] dict: its two entries. *)
Record Keys := { openai : pyval; huggingface : pyval }.

Definition set_openai (v : pyval) : M Keys unit :=
  modify (fun keys => {| openai := v; huggingface := huggingface keys |}).

Definition set_huggingface (v : pyval) : M Keys unit :=
  modify (fun keys => {| openai := openai keys; huggingface := v |}).

(** [os.getenv(name)]: the value, or [None]. *)
Definition getenv (environ : gmap pystr pystr) (name : pystr) : pyval :=
  match environ !! name with
  | Some v => PStr v
  | None => PNone
  end.

(** [~/.cursor/cli-config.json] as the script meets it: missing
    ([exists()] is false), present but [open] raises, present but
    [json.load] raises, or parsed. *)
Inductive ConfigFile :=
  | Absent
  | Unreadable (e : error)
  | InvalidJson (e : error)
  | Parsed (config : pyval).

Definition exists_config (c : ConfigFile) : bool :=
  match c with Absent => false | _ => true end.

(** [open(cursor_config, 'r')] followed by [json.load(f)]; the script gets
    here only when the file exists. *)
Definition json_load (c : ConfigFile) : M Keys pyval :=
  match c with
  | Absent => raise (Exception (Error "FileNotFoundError" (u "cli-config.json")))
  | Unreadable e => raise (Exception e)
  | InvalidJson e => raise (Exception e)
  | Parsed config => ret config
  end.

(** [line.strip().split('=', 1)[1]] *)
Definition line_value (line : pystr) : M Keys pyval :=
  v <- py_index (split1 61 (strip line)) 1 ;; ret (PStr v).

(** The body of [for line in f] over the [.env] file. *)
Definition env_line (line : pystr) : M Keys unit :=
  if startswith line (u "OPENAI_API_KEY=") then
    keys <- get ;;
    v <- or_else (openai keys) (line_value line) ;;
    set_openai v
  else if startswith line (u "HUGGINGFACE_API_KEY=")
          || startswith line (u "HF_TOKEN=") then
    keys <- get ;;
    v <- or_else (huggingface keys) (line_value line) ;;
    set_huggingface v
  else ret tt.

(** The [try] block that reads the configuration file. *)
Definition read_config (c : ConfigFile) : M Keys unit :=
  config <- json_load c ;;
  has_env <- py_in (u "env") config ;;
  when has_env (
    keys <- get ;;
    v <- or_else (openai keys)
           (env <- py_getitem config (u "env") ;;
            py_get env (u "OPENAI_API_KEY") PNone) ;;
    set_openai v ;;
    keys <- get ;;
    v <- or_else (huggingface keys)
           (env <- py_getitem config (u "env") ;;
            py_get env (u "HUGGINGFACE_API_KEY") PNone) ;;
    v <- or_else v
           (env <- py_getitem config (u "env") ;;
            py_get env (u "HF_TOKEN") PNone) ;;
    set_huggingface v).

(** [load_api_keys()], over the three sources it reads: the process
    environment, the lines of the [.env] file next to the script ([None]
    when the file does not exist) and the configuration file. The [.env]
    file is read outside any [try]; it is taken here as a text file that
    can be read. *)
Definition load_api_keys_body (environ : gmap pystr pystr)
    (env_file : option (list pystr)) (cursor_config : ConfigFile) : M Keys Keys :=
  set_openai (getenv environ (u "OPENAI_API_KEY")) ;;
  set_huggingface (py_or (getenv environ (u "HUGGINGFACE_API_KEY"))
                         (getenv environ (u "HF_TOKEN"))) ;;
  match env_file with
  | Some f => for_each f env_line
  | None => ret tt
  end ;;
  when (exists_config cursor_config)
    (try_except (read_config cursor_config) (fun _ => ret tt)) ;;
  get.

Definition load_api_keys (environ : gmap pystr pystr)
    (env_file : option (list pystr)) (cursor_config : ConfigFile) : exn + Keys :=
  fst (load_api_keys_body environ env_file cursor_config
         {| openai := PNone; huggingface := PNone |}).

(** *** Command-line arguments

    [argparse] accepts only the listed [choices], so the four options with
    choices are enumerations. *)

Inductive Provider := Auto | Huggingface | Openai.
Inductive Size := S1024x1024 | S1792x1024 | S1024x1792 | S256x256 | S512x512.
Inductive Quality := Standard | Hd.
Inductive Model := Dall_e_3 | Dall_e_2.

Definition provider_eqb (a b : Provider) : bool :=
  match a, b with
  | Auto, Auto | Huggingface, Huggingface | Openai, Openai => true
  | _, _ => false
  end.

Definition size_eqb (a b : Size) : bool :=
  match a, b with
  | S1024x1024, S1024x1024 | S1792x1024, S1792x1024 | S1024x1792, S1024x1792
  | S256x256, S256x256 | S512x512, S512x512 => true
  | _, _ => false
  end.

Definition quality_eqb (a b : Quality) : bool :=
  match a, b with
  | Standard, Standard | Hd, Hd => true
  | _, _ => false
  end.

Definition model_eqb (a b : Model) : bool :=
  match a, b with
  | Dall_e_3, Dall_e_3 | Dall_e_2, Dall_e_2 => true
  | _, _ => false
  end.

Definition size_str (s : Size) : pystr :=
  match s with
  | S1024x1024 => u "1024x1024"
  | S1792x1024 => u "1792x1024"
  | S1024x1792 => u "1024x1792"
  | S256x256 => u "256x256"
  | S512x512 => u "512x512"
  end.

Definition quality_str (q : Quality) : pystr :=
  match q with Standard => u "standard" | Hd => u "hd" end.

Definition model_str (m : Model) : pystr :=
  match m with Dall_e_3 => u "dall-e-3" | Dall_e_2 => u "dall-e-2" end.

(** The namespace [parser.parse_args()] returns. *)
Record Args := {
  prompt : pystr;
  provider : Provider;
  hf_model : pystr;
  size : Size;
  quality : Quality;
  model : Model;
  output_dir : pystr
}.

(** *** The outside world *)

(** The POST request of the free provider: [API_URL], the token of the
    [Authorization: Bearer ...] header, the [inputs] of the JSON body and the
    timeout. *)
Record hf_request := {
  url : pystr;
  bearer : pyval;
  inputs : pystr;
  timeout : Z
}.

(** An HTTP response: [status_code], [content] and what [json()] does. *)
Record response := {
  status_code : Z;
  content : pybytes;
  json : error + pyval
}.

(** Everything the script reads from outside, and how the outside answers
    its calls. *)
Record World := {
  (** [os.environ] *)
  environ : gmap pystr pystr;
  (** the lines of the [.env] file, [None] when it does not exist *)
  env_file : option (list pystr);
  (** [~/.cursor/cli-config.json] *)
  cursor_config : ConfigFile;
  (** the answer to the [n]-th [requests.post] (counting from 0) *)
  requests_post : nat -> hf_request -> error + response;
  (** [client.images.generate] called with [request_params], for the client
      made with the given key: the [url] of each item of [response.data] *)
  images_generate : pyval -> gmap pystr pyval -> error + list pyval;
  (** [requests.get(image_url).content] *)
  requests_get : pyval -> error + pybytes;
  (** [datetime.now().strftime("%Y%m%d_%H%M%S")] *)
  strftime_now : pystr;
  (** [Path(output_dir).expanduser()] *)
  expanduser : pystr -> pystr;
  (** [str(output_dir_expanded / filename)]; [str] of a path is never
      empty *)
  joinpath : pystr -> pystr -> pystr;
  joinpath_nonempty : forall d f, joinpath d f <> [];
  (** [mkdir(parents=True, exist_ok=True)]: the exception it raises, if any *)
  mkdir : pystr -> option error;
  (** [open(output_path, 'wb')]: the exception it raises, if any *)
  open_wb : pystr -> option error;
  (** [f.write(image_data)] and the closing of the file: the exception
      raised, if any, and how many bytes reached the file before it *)
  write : pystr -> pybytes -> option (nat * error);
  (** the files present when the script starts *)
  disk : gmap pystr pybytes
}.

(** What the script does to the outside, in order. The two [Call_] events
    mark the entry into a provider function. *)
Inductive event :=
  | Print (line : pystr)
  | PrintValue (text : pystr) (v : pyval)
  | PrintTraceback (e : error)
  | Call_huggingface (prompt : pystr) (hf_token : pyval) (model : pystr)
      (output_dir : pystr)
  | Call_openai (prompt : pystr) (api_key : pyval) (size : Size)
      (quality : Quality) (model : Model) (output_dir : pystr)
  | Post (req : hf_request)
  | Sleep (seconds : Z)
  | ImagesGenerate (api_key : pyval) (request_params : gmap pystr pyval)
  | Get (image_url : pyval)
  | Mkdir (dir : pystr)
  | OpenWb (path : pystr)
  | Written (path : pystr) (data : pybytes).

Record Machine := {
  trace : list event;
  files : gmap pystr pybytes;
  posts : nat
}.

Definition emit (e : event) : M Machine unit :=
  modify (fun m => {| trace := trace m ++ [e]; files := files m; posts := posts m |}).

Definition store (path : pystr) (data : pybytes) : M Machine unit :=
  modify (fun m => {| trace := trace m; files := <[path := data]> (files m);
                      posts := posts m |}).

(** [print(line)] *)
Definition print (line : pystr) : M Machine unit := emit (Print line).

Definition nl : pystr := [10].

(** [requests.post(API_URL, headers=headers, json={"inputs": prompt},
    timeout=30)] *)
Definition post (w : World) (req : hf_request) : M Machine response :=
  m <- get ;;
  modify (fun m => {| trace := trace m ++ [Post req]; files := files m;
                      posts := Datatypes.S (posts m) |}) ;;
  lift (requests_post w (posts m) req).

(** [time.sleep(seconds)] *)
Definition sleep (seconds : Z) : M Machine unit := emit (Sleep seconds).

(** [output_path.parent.mkdir(parents=True, exist_ok=True)] *)
Definition mkdir_parents (w : World) (dir : pystr) : M Machine unit :=
  emit (Mkdir dir) ;;
  match mkdir w dir with
  | Some e => raise (Exception e)
  | None => ret tt
  end.

(** [with open(output_path, 'wb') as f: f.write(image_data)]. Opening
    creates the file or empties it; an error while writing leaves what was
    written so far. *)
Definition write_file (w : World) (path : pystr) (data : pybytes) : M Machine unit :=
  emit (OpenWb path) ;;
  match open_wb w path with
  | Some e => raise (Exception e)
  | None =>
    store path [] ;;
    match write w path data with
    | Some (n, e) => store path (take n data) ;; raise (Exception e)
    | None => store path data ;; emit (Written path data)
    end
  end.

(** *** File names *)

(** The test inside the generator expression: [c.isascii() and
    (c.isalnum() or c in (' ', '-', '_'))]. *)
Definition kept (c : N) : bool :=
  isascii c && (ascii_isalnum c || ((c =? 32) || (c =? 45) || (c =? 95))).

(** [safe_prompt], after both assignments: every character of [prompt[:50]]
    that fails the test becomes ['_'], then [.strip().replace(' ', '_')]. *)
Definition safe_prompt (prompt : pystr) : pystr :=
  let safe_prompt := map (fun c => if kept c then c else 95) (prefix 50 prompt) in
  replace 32 95 (strip safe_prompt).

(** [f"{timestamp}_HF_{safe_prompt}.png"] *)
Definition filename_huggingface (timestamp prompt : pystr) : pystr :=
  timestamp ++ u "_HF_" ++ safe_prompt prompt ++ u ".png".

(** [f"{timestamp}_{safe_prompt}.png"] *)
Definition filename_openai (timestamp prompt : pystr) : pystr :=
  timestamp ++ u "_" ++ safe_prompt prompt ++ u ".png".

(** *** The free provider: [generate_image_huggingface] *)

Definition generate_image_huggingface (w : World)
    (prompt : pystr) (hf_token : pyval) (model : pystr) (output_dir : pystr)
    : M Machine pyval :=
  emit (Call_huggingface prompt hf_token model output_dir) ;;
  print (u "🎨 Generating image via Hugging Face...") ;;
  print (u "📝 Prompt: " ++ prompt) ;;
  print (u "🤖 Model: " ++ model) ;;
  print (u "💰 Cost: FREE!") ;;
  print [] ;;
  try_except (
    let API_URL := u "https://api-inference.huggingface.co/models/" ++ model in
    let request := {| url := API_URL; bearer := hf_token; inputs := prompt;
                      timeout := 30 |} in
    response <- post w request ;;
    response <-
      (if (status_code response =? 503)%Z then
         print (u "⏳ Model is loading on HuggingFace servers, this may take ~20 seconds...") ;;
         sleep 20 ;;
         post w request
       else ret response) ;;
    if negb (status_code response =? 200)%Z then
      body <- lift (json response) ;;
      error_msg <- py_get body (u "error") (PStr (u "Unknown error")) ;;
      emit (PrintValue (u "❌ HuggingFace API error: ") error_msg) ;;
      ret PNone
    else
      let image_data := content response in
      let timestamp := strftime_now w in
      let filename := filename_huggingface timestamp prompt in
      let output_dir_expanded := expanduser w output_dir in
      let output_path := joinpath w output_dir_expanded filename in
      mkdir_parents w output_dir_expanded ;;
      write_file w output_path image_data ;;
      print (u "✅ Successfully saved: " ++ output_path) ;;
      print (u "💰 Cost: $0.00 (free)") ;;
      ret (PStr output_path))
  (fun e =>
     print (u "❌ Error generating via HuggingFace: " ++ err_msg e) ;;
     ret PNone).

(** *** The paid provider: [generate_image_openai] *)

(** The [request_params] dict: [quality] is added for DALL-E 3 only. *)
Definition request_params (prompt : pystr) (size : Size) (quality : Quality)
    (model : Model) : gmap pystr pyval :=
  let request_params : gmap pystr pyval :=
    <[u "model" := PStr (model_str model)]>
   (<[u "prompt" := PStr prompt]>
   (<[u "size" := PStr (size_str size)]>
   (<[u "n" := PInt 1]> ∅))) in
  if model_eqb model Dall_e_3 then
    <[u "quality" := PStr (quality_str quality)]> request_params
  else request_params.

(** The cost shown after a paid generation, in thousandths of a dollar. *)
Definition cost (size : Size) (quality : Quality) (model : Model) : N :=
  if model_eqb model Dall_e_3 then
    let cost := if quality_eqb quality Standard then 40 else 80 in
    if size_eqb size S1792x1024 || size_eqb size S1024x1792 then cost * 2 else cost
  else
    if size_eqb size S1024x1024 then 20 else 18.

(** [f"{cost:.3f}"] for a cost below one dollar. *)
Definition format_3f (thousandths : N) : pystr :=
  u "0." ++ [48 + thousandths / 100; 48 + (thousandths / 10) mod 10;
             48 + thousandths mod 10].

(** The client is made with [api_key] before anything else; the request
    that goes through it is recorded with that key. *)
Definition generate_image_openai (w : World)
    (prompt : pystr) (api_key : pyval) (size : Size) (quality : Quality)
    (model : Model) (output_dir : pystr) : M Machine pyval :=
  emit (Call_openai prompt api_key size quality model output_dir) ;;
  print (u "🎨 Generating image via OpenAI DALL-E...") ;;
  print (u "📝 Prompt: " ++ prompt) ;;
  print (u "📐 Size: " ++ size_str size) ;;
  print (u "✨ Quality: " ++ quality_str quality) ;;
  print (u "🤖 Model: " ++ model_str model) ;;
  print [] ;;
  try_except (
    let request_params := request_params prompt size quality model in
    emit (ImagesGenerate api_key request_params) ;;
    data <- lift (images_generate w api_key request_params) ;;
    image_url <- py_index data 0 ;;
    emit (Get image_url) ;;
    image_data <- lift (requests_get w image_url) ;;
    let timestamp := strftime_now w in
    let filename := filename_openai timestamp prompt in
    let output_dir_expanded := expanduser w output_dir in
    let output_path := joinpath w output_dir_expanded filename in
    mkdir_parents w output_dir_expanded ;;
    write_file w output_path image_data ;;
    print (u "✅ Successfully saved: " ++ output_path) ;;
    emit (PrintValue (u "🔗 Original URL: ") image_url) ;;
    print (u "💰 Request cost: $" ++ format_3f (cost size quality model)) ;;
    ret (PStr output_path))
  (fun e =>
     print (u "❌ Error generating via OpenAI: " ++ err_msg e) ;;
     print (nl ++ u "Error details:") ;;
     emit (PrintTraceback e) ;;
     ret PNone).

(** *** [main] *)

Definition set_quality (q : Quality) (args : Args) : Args :=
  {| prompt := prompt args; provider := provider args; hf_model := hf_model args;
     size := size args; quality := q; model := model args;
     output_dir := output_dir args |}.

Definition set_size (s : Size) (args : Args) : Args :=
  {| prompt := prompt args; provider := provider args; hf_model := hf_model args;
     size := s; quality := quality args; model := model args;
     output_dir := output_dir args |}.

(** The step under [# Validate parameters for DALL-E]: the two [if]s that
    print a warning and overwrite [args.quality] and [args.size]. *)
Definition validate_parameters (args : Args) : M Machine Args :=
  args <-
    (if model_eqb (model args) Dall_e_2 && quality_eqb (quality args) Hd then
       print (u "⚠️  Warning: DALL-E 2 doesn't support HD quality, using standard") ;;
       ret (set_quality Standard args)
     else ret args) ;;
  args <-
    (if model_eqb (model args) Dall_e_2
        && (size_eqb (size args) S1792x1024 || size_eqb (size args) S1024x1792) then
       print (u "⚠️  Warning: DALL-E 2 doesn't support large sizes, using 1024x1024") ;;
       ret (set_size S1024x1024 args)
     else ret args) ;;
  ret args.

(** The line that suggests the paid provider:
    [f'   python3 generate_image.py "{args.prompt}" --provider openai']. *)
Definition suggestion (prompt : pystr) : pystr :=
  u "   python3 generate_image.py " ++ dq ++ prompt ++ dq ++ u " --provider openai".

(** The part of [main] under [# Provider selection logic], with the
    [api_keys] loaded before it. *)
Definition provider_selection (w : World) (args : Args) (api_keys : Keys)
    : M Machine unit :=
  when (provider_eqb (provider args) Auto
        || provider_eqb (provider args) Huggingface) (
    if truthy (huggingface api_keys) then
      result <- generate_image_huggingface w (prompt args)
                  (huggingface api_keys) (hf_model args) (output_dir args) ;;
      when (truthy result) (sys_exit 0) ;;
      if provider_eqb (provider args) Huggingface then
        print (nl ++ u "❌ Failed to generate via HuggingFace") ;;
        sys_exit 1
      else
        print (nl ++ u "❌ HuggingFace generation failed") ;;
        print (nl ++ u "💡 You can try paid OpenAI DALL-E API:") ;;
        print (suggestion (prompt args)) ;;
        print (nl ++ u "💰 Cost: ~$0.02-0.04 per image (DALL-E 2/3)") ;;
        print (u "ℹ️  Requires OPENAI_API_KEY in ~/.cursor/cli-config.json") ;;
        sys_exit 1
    else
      if provider_eqb (provider args) Huggingface then
        print (u "❌ HuggingFace token not found!") ;;
        print (u "Add HF_TOKEN to ~/.cursor/cli-config.json:") ;;
        print (u "{" ++ dq ++ u "env" ++ dq ++ u ": {" ++ dq ++ u "HF_TOKEN" ++ dq
               ++ u ": " ++ dq ++ u "your_token" ++ dq ++ u "}}") ;;
        print (nl ++ u "Get token: https://huggingface.co/settings/tokens") ;;
        sys_exit 1
      else
        print (u "⚠️  HuggingFace token not found") ;;
        print (nl ++ u "💡 You can try paid OpenAI DALL-E API:") ;;
        print (suggestion (prompt args)) ;;
        print (nl ++ u "💰 Cost: ~$0.02-0.04 per image") ;;
        print (u "ℹ️  Requires OPENAI_API_KEY in ~/.cursor/cli-config.json") ;;
        sys_exit 1) ;;
  when (provider_eqb (provider args) Openai) (
    when (negb (truthy (openai api_keys))) (
      print (nl ++ u "❌ OpenAI API key not found!") ;;
      print (u "Add OPENAI_API_KEY to ~/.cursor/cli-config.json:") ;;
      print (u "{" ++ dq ++ u "env" ++ dq ++ u ": {" ++ dq ++ u "OPENAI_API_KEY" ++ dq
             ++ u ": " ++ dq ++ u "sk-your-key" ++ dq ++ u "}}") ;;
      print (nl ++ u "Get key: https://platform.openai.com/api-keys") ;;
      sys_exit 1) ;;
    args <- validate_parameters args ;;
    result <- generate_image_openai w (prompt args) (openai api_keys)
                (size args) (quality args) (model args) (output_dir args) ;;
    if truthy result then sys_exit 0
    else
      print (nl ++ u "❌ Failed to generate image") ;;
      sys_exit 1).

(** [main()], from [api_keys = load_api_keys()] on: [args] is what
    [parser.parse_args()] returned. *)
Definition main (w : World) (args : Args) : M Machine unit :=
  api_keys <-
    (match load_api_keys (environ w) (env_file w) (cursor_config w) with
     | inl e => raise e
     | inr keys => ret keys
     end) ;;
  provider_selection w args api_keys.

(** *** Running the script *)

Definition initial (w : World) : Machine :=
  {| trace := []; files := disk w; posts := 0 |}.

(** The exit status of the process: the code given to [sys.exit], 1 for an
    exception nobody caught, 0 when [main] returns. *)
Definition exit_status (r : exn + unit) : Z :=
  match r with
  | inl (SystemExit code) => code
  | inl (Exception _) => 1
  | inr tt => 0
  end.

(** One invocation: the exit status and the machine it leaves. *)
Definition run (w : World) (args : Args) : Z * Machine :=
  let '(r, m) := main w args (initial w) in (exit_status r, m).

Definition exit_code (w : World) (args : Args) : Z := fst (run w args).
Definition final (w : World) (args : Args) : Machine := snd (run w args).

(** *** Observations on a trace *)

Definition is_call_huggingface (e : event) : bool :=
  match e with Call_huggingface _ _ _ _ => true | _ => false end.

Definition is_call_openai (e : event) : bool :=
  match e with Call_openai _ _ _ _ _ _ => true | _ => false end.

Definition is_provider_call (e : event) : bool :=
  is_call_huggingface e || is_call_openai e.



Definition is_written (e : event) : bool :=
  match e with Written _ _ => true | _ => false end.

(** How many events of a trace satisfy a test. *)
Fixpoint count (p : event -> bool) (t : list event) : nat :=
  match t with
  | [] => 0%nat
  | e :: r => ((if p e then 1 else 0) + count p r)%nat
  end.

(** The events of a trace that satisfy a test, in order. *)
Fixpoint only (p : event -> bool) (t : list event) : list event :=
  match t with
  | [] => []
  | e :: r => if p e then e :: only p r else only p r
  end.

End Script.
Export Script.

(* ===================================================================== *)
(** ** What the specification says, in its own words                      *)
(* ===================================================================== *)

Module Spec.



(** The value of a [KEY=value] line: what follows [KEY=], without the
    whitespace around the line. *)
Definition value_after (key_eq line : pystr) : pyval :=
  PStr (drop (length key_eq) (strip line)).

(** The values the [.env] file gives for the OpenAI key, in file order. *)
Definition env_file_openai (f : option (list pystr)) : list pyval :=
  match f with
  | None => []
  | Some lines =>
    flat_map (fun line =>
      if startswith line (u "OPENAI_API_KEY=")
      then [value_after (u "OPENAI_API_KEY=") line] else []) lines
  end.

(** The values the [.env] file gives for the HuggingFace token, under
    either of its two names, in file order. *)
Definition env_file_huggingface (f : option (list pystr)) : list pyval :=
  match f with
  | None => []
  | Some lines =>
    flat_map (fun line =>
      if startswith line (u "HUGGINGFACE_API_KEY=")
      then [value_after (u "HUGGINGFACE_API_KEY=") line]
      else if startswith line (u "HF_TOKEN=")
      then [value_after (u "HF_TOKEN=") line] else []) lines
  end.

(** The [env] object of the configuration file, when the file parses to an
    object that has one. *)
Definition config_env (c : ConfigFile) : option (gmap pystr pyval) :=
  match c with
  | Parsed (PDict d) =>
    match d !! u "env" with
    | Some (PDict env) => Some env
    | _ => None
    end
  | _ => None
  end.

(** What the configuration file gives for a name ([None] when its [env]
    object lacks the name; nothing when there is no [env] object). *)
Definition config_value (c : ConfigFile) (name : pystr) : list pyval :=
  match config_env c with
  | Some env => [default PNone (env !! name)]
  | None => []
  end.



(** Sanitizing one character of a prompt: ASCII letters and digits, the
    hyphen and the underscore are kept, every other character (the space
    too) becomes an underscore. *)
Definition sanitize_char (c : N) : N :=
  if isascii c && (ascii_isalnum c || (c =? 45) || (c =? 95)) then c else 95.

(** Removing the spaces (U+0020 only) at both ends of a string. *)
Fixpoint drop_spaces (s : pystr) : pystr :=
  match s with
  | c :: r => if c =? 32 then drop_spaces r else s
  | [] => []
  end.

Definition trim_spaces (s : pystr) : pystr :=
  rev (drop_spaces (rev (drop_spaces s))).

(** The sanitized prefix of a prompt. *)
Definition sanitized (prompt : pystr) : pystr :=
  map sanitize_char (trim_spaces (take 50 prompt)).

(** The request [generate_image_huggingface] posts. *)
Definition huggingface_request (prompt : pystr) (hf_token : pyval)
    (model : pystr) : hf_request :=
  {| url := u "https://api-inference.huggingface.co/models/" ++ model;
     bearer := hf_token; inputs := prompt; timeout := 30 |}.

(** The events that show an image-generation request going out. *)
Definition is_images_generate (e : event) : bool :=
  match e with ImagesGenerate _ _ => true | _ => false end.







(** The generation requests that reach the paid provider during one call
    of a provider function are [expected]. *)
Definition generation_requests (expected : list event) (m : Machine)
    (res : (exn + pyval) * Machine) : Prop :=
  let '(r, m') := res in
  exists new,
    trace m' = trace m ++ new /\ only is_images_generate new = expected.


(** The summary of one call of a provider function from [m]: it returns,
    its events follow those of [m] and start with [call], it calls no
    further provider, and it ends in one of the ways of [save_outcome], the
    file written being [path]. *)
Definition provider_summary (w : World) (call : event) (path : pystr)
    (received : pybytes -> Prop) (m : Machine)
    (res : (exn + pyval) * Machine) : Prop :=
  let '(r, m') := res in
  exists new,
    trace m' = trace m ++ call :: new
    /\ count is_provider_call new = 0%nat
    /\ ((r = inr PNone /\ count is_written new = 0%nat
         /\ (files m' = files m
             \/ exists data n e,
                  open_wb w path = None /\ write w path data = Some (n, e)
                  /\ files m' = <[path := take n data]> (files m)))
        \/ (exists data,
              r = inr (PStr path) /\ received data
              /\ only is_written new = [Written path data]
              /\ files m' = <[path := data]> (files m))).

(** The bytes the free provider hands over: the body of a 200 response to
    the request. *)
Definition received_huggingface (w : World) (request : hf_request)
    (data : pybytes) : Prop :=
  exists n resp,
    requests_post w n request = inr resp
    /\ status_code resp = 200%Z /\ data = content resp.

(** The bytes the paid provider hands over: the download of an image URL. *)
Definition received_openai (w : World) (data : pybytes) : Prop :=
  exists image_url, requests_get w image_url = inr data.

(** Where each provider function saves its picture. *)
Definition path_huggingface (w : World) (prompt output_dir : pystr) : pystr :=
  joinpath w (expanduser w output_dir)
    (filename_huggingface (strftime_now w) prompt).

Definition path_openai (w : World) (prompt output_dir : pystr) : pystr :=
  joinpath w (expanduser w output_dir) (filename_openai (strftime_now w) prompt).

(** Parameter correction: the cheaper paid model has neither high-quality
    rendering nor the enlarged sizes; quality falls back to standard and
    size to the default square. *)
Definition corrected (args : Args) : Args :=
  match model args with
  | Dall_e_3 => args
  | Dall_e_2 =>
    set_size (match size args with
              | S1792x1024 | S1024x1792 => S1024x1024
              | s => s
              end)
      (set_quality Standard args)
  end.

Definition warning_quality : event :=
  Print (u "⚠️  Warning: DALL-E 2 doesn't support HD quality, using standard").

Definition warning_size : event :=
  Print (u "⚠️  Warning: DALL-E 2 doesn't support large sizes, using 1024x1024").

(** The warnings that go with the correction. *)
Definition warnings (args : Args) : list event :=
  match model args with
  | Dall_e_3 => []
  | Dall_e_2 =>
    (match quality args with Hd => [warning_quality] | Standard => [] end)
    ++ (match size args with
        | S1792x1024 | S1024x1792 => [warning_size]
        | _ => []
        end)
  end.

(** What [main] prints when the credential of the requested provider is
    missing. *)
Definition missing_credential (args : Args) : list event :=
  match provider args with
  | Huggingface =>
    [Print (u "❌ HuggingFace token not found!");
     Print (u "Add HF_TOKEN to ~/.cursor/cli-config.json:");
     Print (u "{" ++ dq ++ u "env" ++ dq ++ u ": {" ++ dq ++ u "HF_TOKEN" ++ dq
            ++ u ": " ++ dq ++ u "your_token" ++ dq ++ u "}}");
     Print (nl ++ u "Get token: https://huggingface.co/settings/tokens")]
  | Auto =>
    [Print (u "⚠️  HuggingFace token not found");
     Print (nl ++ u "💡 You can try paid OpenAI DALL-E API:");
     Print (suggestion (prompt args));
     Print (nl ++ u "💰 Cost: ~$0.02-0.04 per image");
     Print (u "ℹ️  Requires OPENAI_API_KEY in ~/.cursor/cli-config.json")]
  | Openai =>
    [Print (nl ++ u "❌ OpenAI API key not found!");
     Print (u "Add OPENAI_API_KEY to ~/.cursor/cli-config.json:");
     Print (u "{" ++ dq ++ u "env" ++ dq ++ u ": {" ++ dq ++ u "OPENAI_API_KEY" ++ dq
            ++ u ": " ++ dq ++ u "sk-your-key" ++ dq ++ u "}}");
     Print (nl ++ u "Get key: https://platform.openai.com/api-keys")]
  end.

(** A machine after some more events. *)
Definition after (m : Machine) (events : list event) : Machine :=
  {| trace := trace m ++ events; files := files m; posts := posts m |}.

(** How [main] ends once a provider function has returned [result]:
    status 0 for a path, else the failure messages and status 1. *)
Definition conclude (failure : list event) (res : (exn + pyval) * Machine)
    : (exn + unit) * Machine :=
  match res with
  | (inr result, m') =>
    if truthy result then (inl (SystemExit 0), m')
    else (inl (SystemExit 1), after m' failure)
  | (inl e, m') => (inl e, m')
  end.

(** What [main] prints after a failed call of the free provider. *)
Definition huggingface_failed (args : Args) : list event :=
  match provider args with
  | Huggingface => [Print (nl ++ u "❌ Failed to generate via HuggingFace")]
  | _ =>
    [Print (nl ++ u "❌ HuggingFace generation failed");
     Print (nl ++ u "💡 You can try paid OpenAI DALL-E API:");
     Print (suggestion (prompt args));
     Print (nl ++ u "💰 Cost: ~$0.02-0.04 per image (DALL-E 2/3)");
     Print (u "ℹ️  Requires OPENAI_API_KEY in ~/.cursor/cli-config.json")]
  end.

(** The provider call a run makes, if any: the requested provider when
    its credential is there, with the corrected parameters for the paid
    one. *)
Definition expected_call (args : Args) (keys : Keys) : option event :=
  match provider args with
  | Openai =>
    if truthy (openai keys) then
      Some (Call_openai (prompt args) (openai keys) (size (corrected args))
              (quality (corrected args)) (model args) (output_dir args))
    else None
  | _ =>
    if truthy (huggingface keys) then
      Some (Call_huggingface (prompt args) (huggingface keys) (hf_model args)
              (output_dir args))
    else None
  end.

(** The generation requests a run sends to the paid provider. *)
Definition expected_requests (args : Args) (keys : Keys) : list event :=
  match provider args with
  | Openai =>
    if truthy (openai keys) then
      [ImagesGenerate (openai keys)
         (request_params (prompt args) (size (corrected args))
            (quality (corrected args)) (model args))]
    else []
  | _ => []
  end.

(** Where a run saves its picture. *)
Definition expected_path (w : World) (args : Args) : pystr :=
  match provider args with
  | Openai => path_openai w (prompt args) (output_dir args)
  | _ => path_huggingface w (prompt args) (output_dir args)
  end.

(** The bytes a run gets from its provider. *)
Definition received (w : World) (args : Args) (keys : Keys) (data : pybytes)
    : Prop :=
  match provider args with
  | Openai => received_openai w data
  | _ =>
    received_huggingface w
      (huggingface_request (prompt args) (huggingface keys) (hf_model args)) data
  end.

(** What a run prints before its provider call, and after a failed one. *)
Definition lead (args : Args) : list event :=
  match provider args with
  | Openai => warnings args
  | _ => []
  end.

Definition failure_messages (args : Args) : list event :=
  match provider args with
  | Openai => [Print (nl ++ u "❌ Failed to generate image")]
  | _ => huggingface_failed args
  end.

(** The report of a run with the credentials [keys]: without the
    credential of the requested provider, the messages and status 1;
    otherwise one provider call, whose events are [new], ending either in
    failure (status 1, the failure messages, no file written) or in success
    (status 0, one file written with the bytes received). *)
Definition run_report (w : World) (args : Args) (keys : Keys) : Prop :=
  let t := trace (final w args) in
  let fs := files (final w args) in
  let path := expected_path w args in
  match expected_call args keys with
  | None =>
    exit_code w args = 1%Z /\ t = missing_credential args /\ fs = disk w
  | Some call =>
    exists new,
      count is_provider_call new = 0%nat
      /\ only is_images_generate new = expected_requests args keys
      /\ ((exit_code w args = 1%Z
           /\ t = lead args ++ call :: new ++ failure_messages args
           /\ count is_written new = 0%nat
           /\ (fs = disk w
               \/ exists data n e,
                    open_wb w path = None /\ write w path data = Some (n, e)
                    /\ fs = <[path := take n data]> (disk w)))
          \/ (exists data,
                exit_code w args = 0%Z
                /\ t = lead args ++ call :: new
                /\ received w args keys data
                /\ only is_written new = [Written path data]
                /\ fs = <[path := data]> (disk w)))
  end.


End Spec.
Export Spec.

(* ===================================================================== *)
(** ** Example worlds                                                     *)
(* ===================================================================== *)

Module Examples.

(** A world given by its environment and the answers of the two
    providers; the disk is empty and never fails. *)
Definition world (environ : gmap pystr pystr)
    (requests_post : nat -> hf_request -> error + response)
    (images_generate : pyval -> gmap pystr pyval -> error + list pyval)
    (requests_get : pyval -> error + pybytes) : World :=
  {| environ := environ; env_file := None; cursor_config := Absent;
     requests_post := requests_post;
     images_generate := images_generate;
     requests_get := requests_get;
     strftime_now := u "20240131_235959";
     expanduser := fun d => d;
     joinpath := fun d f => d ++ u "/" ++ f;
     joinpath_nonempty := ltac:(intros [|c d] f; discriminate);
     mkdir := fun _ => None; open_wb := fun _ => None; write := fun _ _ => None;
     disk := ∅ |}.

Definition png : pybytes := [Byte.x89; Byte.x50; Byte.x4e; Byte.x47].

Definition ok (data : pybytes) : response :=
  {| status_code := 200; content := data;
     json := inl (Error "JSONDecodeError" (u "Expecting value")) |}.

Definition failed (status : Z) (message : pystr) : response :=
  {| status_code := status; content := [];
     json := inr (PDict (<[u "error" := PStr message]> ∅)) |}.

Definition refused {A} : error + A :=
  inl (Error "ConnectionError" (u "connection refused")).

Definition with_hf_token : gmap pystr pystr := <[u "HF_TOKEN" := u "hf_abc"]> ∅.
Definition with_openai_key : gmap pystr pystr := <[u "OPENAI_API_KEY" := u "sk-abc"]> ∅.

(** The free provider answers with a picture. *)
Definition hf_ok : World :=
  world with_hf_token (fun _ _ => inr (ok png)) (fun _ _ => refused) (fun _ => refused).


(** The free provider is loading, then fails. *)
Definition hf_loading_then_error : World :=
  world with_hf_token
    (fun n _ => match n with
                | O => inr (failed 503 (u "Model is currently loading"))
                | _ => inr (failed 500 (u "Internal error"))
                end)
    (fun _ _ => inr [PStr (u "https://example.org/image.png")])
    (fun _ => inr png).

(** The free provider answers with a picture, and the disk fails after two
    bytes of it are written. *)
Definition hf_disk_full : World :=
  {| environ := with_hf_token; env_file := None; cursor_config := Absent;
     requests_post := fun _ _ => inr (ok png);
     images_generate := fun _ _ => refused;
     requests_get := fun _ => refused;
     strftime_now := u "20240131_235959";
     expanduser := fun d => d;
     joinpath := fun d f => d ++ u "/" ++ f;
     joinpath_nonempty := ltac:(intros [|c d] f; discriminate);
     mkdir := fun _ => None; open_wb := fun _ => None;
     write := fun _ _ => Some (2%nat, Error "OSError" (u "No space left on device"));
     disk := ∅ |}.

(** The paid provider answers with a picture. *)
Definition openai_ok : World :=
  world with_openai_key (fun _ _ => refused)
    (fun _ _ => inr [PStr (u "https://example.org/image.png")])
    (fun _ => inr png).

(** No credential anywhere. *)
Definition no_credentials : World :=
  world ∅ (fun _ _ => inr (ok png))
    (fun _ _ => inr [PStr (u "https://example.org/image.png")])
    (fun _ => inr png).

Definition cat (p : Provider) (q : Quality) (s : Size) (m : Model) : Args :=
  {| prompt := u "Cat/Space?? 2024"; provider := p;
     hf_model := u "black-forest-labs/FLUX.1-schnell";
     size := s; quality := q; model := m; output_dir := u "~/Downloads" |}.

End Examples.

(* ===================================================================== *)
(** ** Further behaviour of the script                                    *)
(* ===================================================================== *)

Module Behaviour.















(** Two command lines agree on what their mode reads: the prompt, the
    output directory and, for the paid provider, size, quality and model,
    for the free one, the HuggingFace model. *)
Definition same_for_mode (a b : Args) : Prop :=
  provider a = provider b /\ prompt a = prompt b
  /\ output_dir a = output_dir b
  /\ match provider a with
     | Openai => size a = size b /\ quality a = quality b /\ model a = model b
     | _ => hf_model a = hf_model b
     end.

(** Two credential sets agree on the credential of the mode. *)
Definition same_credential (p : Provider) (k1 k2 : Keys) : Prop :=
  match p with
  | Openai => openai k1 = openai k2
  | _ => huggingface k1 = huggingface k2
  end.

(** The characters a sanitized prefix is made of. *)
Definition allowed (c : N) : Prop :=
  ascii_isalnum c = true \/ c = 45 \/ c = 95.

End Behaviour.
Export Behaviour.

(* ===================================================================== *)
(** ** String lemmas                                                      *)
(* ===================================================================== *)

Section Strings.

Lemma startswith_inv (p s : pystr) :
  startswith s p = true -> exists rest, s = p ++ rest.
Proof.
  revert s. induction p as [|a p IH]; intros s H.
  - exists s. reflexivity.
  - destruct s as [|b s]; simpl in H; [discriminate|].
    apply andb_prop in H as [Hab Hs]. apply N.eqb_eq in Hab as ->.
    destruct (IH _ Hs) as [rest ->]. exists rest. reflexivity.
Qed.

(** Characters that are not whitespace stop [lstrip]. *)
Lemma lstrip_keeps (s : pystr) :
  match s with c :: _ => isspace c = false | [] => True end -> lstrip s = s.
Proof. destruct s as [|c r]; simpl; [reflexivity|]. intros ->. reflexivity. Qed.

Lemma lstrip_app_keeps (a b : pystr) :
  forallb (fun c => negb (isspace c)) b = true ->
  exists a', lstrip (a ++ b) = a' ++ b.
Proof.
  intros Hb. induction a as [|c a IH]; simpl.
  - exists []. apply lstrip_keeps. destruct b as [|c b]; [exact I|].
    cbn [forallb] in Hb. apply andb_prop in Hb as [Hc _].
    apply negb_true_iff in Hc. exact Hc.
  - destruct (isspace c).
    + exact IH.
    + exists (c :: a). reflexivity.
Qed.

(** A line that starts with a key free of whitespace still starts with it
    after [strip()]. *)
Lemma strip_keeps_prefix (p rest : pystr) :
  p <> [] ->
  forallb (fun c => negb (isspace c)) p = true ->
  exists rest', strip (p ++ rest) = p ++ rest'.
Proof.
  intros Hne Hp. unfold strip, rstrip.
  rewrite (lstrip_keeps (p ++ rest)).
  2:{ destruct p as [|c p]; [congruence|]. cbn [forallb] in Hp.
      apply andb_prop in Hp as [Hc _]. apply negb_true_iff in Hc.
      exact Hc. }
  rewrite rev_app_distr.
  destruct (lstrip_app_keeps (rev rest) (rev p)) as [a' Ha'].
  { rewrite forallb_forall in *. intros c Hc. apply Hp.
    apply in_rev. exact Hc. }
  rewrite Ha', rev_app_distr, rev_involutive. eauto.
Qed.

Lemma split1_at_eq (key rest : pystr) :
  forallb (fun c => negb (c =? 61)) key = true ->
  split1 61 (key ++ 61 :: rest) = [key; rest].
Proof.
  induction key as [|c key IH]; simpl; intros H; [reflexivity|].
  apply andb_prop in H as [Hc Hk]. apply negb_true_iff in Hc.
  rewrite Hc, (IH Hk). reflexivity.
Qed.

(** [strip()] with only spaces to remove, and the sanitizing map. *)
Lemma lstrip_map_kept (s : pystr) :
  lstrip (map (fun c => if kept c then c else 95) s)
  = map (fun c => if kept c then c else 95) (drop_spaces s).
Proof.
  induction s as [|c s IH]; simpl; [reflexivity|].
  destruct (N.eqb_spec c 32) as [->|Hc].
  - simpl. exact IH.
  - assert (isspace (if kept c then c else 95) = false) as ->; [|reflexivity].
    destruct (kept c) eqn:Hk; [|reflexivity].
    unfold kept, isascii, ascii_isalnum in Hk. unfold isspace.
    repeat (rewrite andb_true_iff in Hk || rewrite orb_true_iff in Hk).
    rewrite ?N.leb_le, ?N.ltb_lt, ?N.eqb_eq in Hk.
    repeat (rewrite orb_false_iff || rewrite andb_false_iff).
    rewrite ?N.leb_gt, ?N.eqb_neq. lia.
Qed.

Lemma replace_map_kept (s : pystr) :
  replace 32 95 (map (fun c => if kept c then c else 95) s) = map sanitize_char s.
Proof.
  unfold replace. rewrite map_map. apply map_ext. intros c. cbv beta.
  destruct (N.eqb_spec c 32) as [->|Hc]; [reflexivity|].
  unfold kept, sanitize_char. apply N.eqb_neq in Hc. rewrite Hc.
  destruct (isascii c), (ascii_isalnum c), (N.eqb_spec c 45), (N.eqb_spec c 95);
    subst; cbn; rewrite ?Hc; try reflexivity; discriminate.
Qed.

End Strings.

(* ===================================================================== *)
(** ** Credential resolution                                              *)
(* ===================================================================== *)

Section Credentials.

Lemma or_list_app (a : pyval) (l1 l2 : list pyval) :
  or_list a (l1 ++ l2) = or_list (or_list a l1) l2.
Proof. revert a. induction l1 as [|b l1 IH]; intros a; simpl; auto. Qed.


(** A line that starts with [KEY=] has a value: [split('=', 1)[1]] never
    raises there. *)
Lemma line_value_after (key line : pystr) (keys : Keys) :
  key <> [] ->
  forallb (fun c => negb (isspace c)) (key ++ [61]) = true ->
  forallb (fun c => negb (c =? 61)) key = true ->
  startswith line (key ++ [61]) = true ->
  line_value line keys = (inr (value_after (key ++ [61]) line), keys).
Proof.
  intros Hne Hsp Heq Hstart.
  destruct (startswith_inv _ _ Hstart) as [rest ->].
  destruct (strip_keeps_prefix (key ++ [61]) rest) as [rest' Hstrip];
    [destruct key; discriminate | exact Hsp |].
  unfold line_value, value_after, bind, py_index. rewrite Hstrip.
  rewrite drop_app_length, <- app_assoc. simpl.
  rewrite (split1_at_eq key rest' Heq). reflexivity.
Qed.

Lemma line_value_openai (line : pystr) (keys : Keys) :
  startswith line (u "OPENAI_API_KEY=") = true ->
  line_value line keys = (inr (value_after (u "OPENAI_API_KEY=") line), keys).
Proof. apply (line_value_after (u "OPENAI_API_KEY")); [discriminate | reflexivity ..]. Qed.

Lemma line_value_huggingface (line : pystr) (keys : Keys) :
  startswith line (u "HUGGINGFACE_API_KEY=") = true ->
  line_value line keys = (inr (value_after (u "HUGGINGFACE_API_KEY=") line), keys).
Proof. apply (line_value_after (u "HUGGINGFACE_API_KEY")); [discriminate | reflexivity ..]. Qed.

Lemma line_value_hf_token (line : pystr) (keys : Keys) :
  startswith line (u "HF_TOKEN=") = true ->
  line_value line keys = (inr (value_after (u "HF_TOKEN=") line), keys).
Proof. apply (line_value_after (u "HF_TOKEN")); [discriminate | reflexivity ..]. Qed.

(** The three keys start with different letters or lengths. *)
Lemma openai_line_not_huggingface (line : pystr) :
  startswith line (u "OPENAI_API_KEY=") = true ->
  startswith line (u "HUGGINGFACE_API_KEY=") = false
  /\ startswith line (u "HF_TOKEN=") = false.
Proof. intros H. destruct (startswith_inv _ _ H) as [rest ->]. split; reflexivity. Qed.

(** One line of the [.env] file: each credential picks up the value of
    the line when it had none. *)
Lemma env_line_run (line : pystr) (keys : Keys) :
  env_line line keys =
  (inr tt,
   {| openai := or_list (openai keys) (env_file_openai (Some [line]));
      huggingface := or_list (huggingface keys) (env_file_huggingface (Some [line])) |}).
Proof.
  destruct keys as [o h]. unfold env_line, env_file_openai, env_file_huggingface.
  cbn [flat_map openai huggingface].
  destruct (startswith line (u "OPENAI_API_KEY=")) eqn:Ho.
  - destruct (openai_line_not_huggingface _ Ho) as [-> ->].
    unfold bind, get, or_else, set_openai, modify, ret. cbn [openai huggingface].
    destruct (truthy o) eqn:To; cbn; unfold py_or; rewrite To.
    + reflexivity.
    + rewrite (line_value_openai _ _ Ho). reflexivity.
  - destruct (startswith line (u "HUGGINGFACE_API_KEY=")) eqn:Hh.
    + cbn [orb]. unfold bind, get, or_else, set_huggingface, modify, ret.
      cbn [openai huggingface].
      destruct (truthy h) eqn:Th; cbn; unfold py_or; rewrite Th.
      * reflexivity.
      * rewrite (line_value_huggingface _ _ Hh). reflexivity.
    + cbn [orb]. destruct (startswith line (u "HF_TOKEN=")) eqn:Ht.
      * unfold bind, get, or_else, set_huggingface, modify, ret.
        cbn [openai huggingface].
        destruct (truthy h) eqn:Th; cbn; unfold py_or; rewrite Th.
        -- reflexivity.
        -- rewrite (line_value_hf_token _ _ Ht). reflexivity.
      * reflexivity.
Qed.

(** The whole [.env] file. *)
Lemma env_file_run (lines : list pystr) (keys : Keys) :
  for_each lines env_line keys =
  (inr tt,
   {| openai := or_list (openai keys) (env_file_openai (Some lines));
      huggingface := or_list (huggingface keys) (env_file_huggingface (Some lines)) |}).
Proof.
  revert keys. induction lines as [|line lines IH]; intros keys.
  - destruct keys. reflexivity.
  - cbn [for_each]. unfold bind at 1. rewrite env_line_run, IH.
    cbn [openai huggingface env_file_openai env_file_huggingface flat_map].
    rewrite !app_nil_r, !or_list_app. reflexivity.
Qed.

(** The guarded read of the configuration file: it never raises, and each
    credential picks up the value of the [env] object when it had none.
    Without an [env] object nothing changes, whatever went wrong. *)
Lemma read_config_run (c : ConfigFile) (keys : Keys) :
  try_except (read_config c) (fun _ => ret tt) keys =
  (inr tt,
   {| openai := or_list (openai keys) (config_value c (u "OPENAI_API_KEY"));
      huggingface :=
        or_list (huggingface keys)
          (config_value c (u "HUGGINGFACE_API_KEY") ++ config_value c (u "HF_TOKEN")) |}).
Proof.
  destruct keys as [o h].
  unfold config_value, config_env, try_except, read_config, json_load, bind.
  destruct c as [|e|e|config]; try reflexivity.
  unfold ret at 1.
  destruct config as [|b|z|f|s|l|d]; try reflexivity.
  - (* a string *)
    cbn [py_in ret]. destruct (contains s (u "env")); [|reflexivity].
    unfold when, bind, get, or_else, py_getitem, set_openai, set_huggingface,
      modify, ret, raise, TypeError.
    destruct (truthy o) eqn:To, (truthy h) eqn:Th;
      repeat (progress (cbn [openai huggingface]; rewrite ?To, ?Th));
      reflexivity.
  - (* a list *)
    cbn [py_in ret]. destruct (existsb (eq_str (u "env")) l); [|reflexivity].
    unfold when, bind, get, or_else, py_getitem, set_openai, set_huggingface,
      modify, ret, raise, TypeError.
    destruct (truthy o) eqn:To, (truthy h) eqn:Th;
      repeat (progress (cbn [openai huggingface]; rewrite ?To, ?Th));
      reflexivity.
  - (* an object *)
    cbn [py_in ret]. destruct (d !! u "env") as [env|] eqn:Henv; [|reflexivity].
    unfold when, bind, get, or_else, py_getitem, py_get, set_openai,
      set_huggingface, modify, ret, raise, AttributeError, py_or.
    rewrite Henv, bool_decide_eq_true_2 by (eexists; reflexivity).
    cbn [or_list app]. unfold py_or.
    destruct (truthy o) eqn:To, (truthy h) eqn:Th;
      destruct env as [|b|z|f|s|l|env];
      repeat (progress (cbn [openai huggingface or_list app]; unfold py_or;
                        rewrite ?To, ?Th));
      try reflexivity;
      destruct (env !! u "HUGGINGFACE_API_KEY") as [v|]; simpl;
      try destruct (truthy v); reflexivity.
Qed.

(** [load_api_keys] always returns, and each credential is the [or] of its
    sources in the order environment, [.env] file, configuration file. *)
Lemma load_api_keys_run (environ : gmap pystr pystr)
    (env_file : option (list pystr)) (c : ConfigFile) :
  load_api_keys environ env_file c =
  inr {| openai :=
           or_list (getenv environ (u "OPENAI_API_KEY"))
             (env_file_openai env_file ++ config_value c (u "OPENAI_API_KEY"));
         huggingface :=
           or_list (getenv environ (u "HUGGINGFACE_API_KEY"))
             ([getenv environ (u "HF_TOKEN")] ++ env_file_huggingface env_file
              ++ config_value c (u "HUGGINGFACE_API_KEY")
              ++ config_value c (u "HF_TOKEN")) |}.
Proof.
  unfold load_api_keys, load_api_keys_body.
  unfold bind at 1 2 3 4, set_openai, set_huggingface, modify.
  cbn [openai huggingface].
  set (k0 := {| openai := getenv environ (u "OPENAI_API_KEY");
                huggingface := py_or (getenv environ (u "HUGGINGFACE_API_KEY"))
                                     (getenv environ (u "HF_TOKEN")) |}).
  assert (Hfile :
    match env_file with Some f => for_each f env_line | None => ret tt end k0
    = (inr tt, {| openai := or_list (openai k0) (env_file_openai env_file);
                  huggingface := or_list (huggingface k0)
                                   (env_file_huggingface env_file) |})).
  { destruct env_file as [f|]; [apply env_file_run|]. reflexivity. }
  rewrite Hfile. clear Hfile.
  set (k1 := {| openai := or_list (openai k0) (env_file_openai env_file);
                huggingface := or_list (huggingface k0)
                                 (env_file_huggingface env_file) |}).
  assert (Hcfg :
    when (exists_config c) (try_except (read_config c) (fun _ => ret tt)) k1
    = (inr tt,
       {| openai := or_list (openai k1) (config_value c (u "OPENAI_API_KEY"));
          huggingface :=
            or_list (huggingface k1)
              (config_value c (u "HUGGINGFACE_API_KEY")
               ++ config_value c (u "HF_TOKEN")) |})).
  { destruct c; try apply read_config_run. reflexivity. }
  rewrite Hcfg. clear Hcfg. unfold get. cbn [fst].
  subst k1 k0. cbn [openai huggingface or_list app].
  rewrite !or_list_app. reflexivity.
Qed.

End Credentials.

(* ===================================================================== *)
(** ** Running the provider functions                                     *)
(* ===================================================================== *)

(** The scrutinee that blocks the evaluation of a computation. *)
Ltac root_scrutinee t :=
  lazymatch t with
  | match ?x with _ => _ end => root_scrutinee x
  | (match ?x with _ => _ end) _ => root_scrutinee x
  | _ => t
  end.

Ltac unfold_script :=
  unfold generate_image_huggingface, generate_image_openai,
    mkdir_parents, write_file, post, sleep, print, emit,
    store, py_get, py_index, lift, sys_exit, when, try_except, bind, ret, raise,
    modify, get, AttributeError, IndexError.

Ltac reduce :=
  cbn [trace files posts fst snd status_code content json
       lookup list_lookup negb].

(** One step of a goal [Q (computation)]: case analysis on what blocks the
    computation, until it is a pair. *)
Ltac step :=
  lazymatch goal with
  | |- _ ?t =>
    let y := root_scrutinee t in
    lazymatch y with
    | (_, _) => fail
    | _ => destruct y eqn:?
    end
  end.

Ltac run_script := unfold_script; reduce; repeat (step; reduce).

(** Finding an event in a concrete trace. *)
Ltac find_event :=
  cbn [In err_msg];
  solve [repeat lazymatch goal with
                | |- ?a = ?b \/ _ => first [constr_eq a b; left; reflexivity | right]
                end].

(** The trace of a finished run, as one list after the initial trace. *)
Ltac flatten_trace := rewrite <- ?app_assoc; cbn [app].

Section Providers.

Lemma only_app (p : event -> bool) (a b : list event) :
  only p (a ++ b) = only p a ++ only p b.
Proof.
  induction a as [|e a IH]; simpl; [reflexivity|].
  destruct (p e); rewrite IH; reflexivity.
Qed.

Lemma count_only (p : event -> bool) (t : list event) :
  count p t = length (only p t).
Proof.
  induction t as [|e t IH]; simpl; [reflexivity|].
  destruct (p e); simpl; rewrite IH; reflexivity.
Qed.

Lemma truthy_joinpath (w : World) (d f : pystr) :
  truthy (PStr (joinpath w d f)) = true.
Proof.
  pose proof (joinpath_nonempty w d f) as H. cbn [truthy].
  destruct (joinpath w d f); [congruence | reflexivity].
Qed.

(** Every call of the free provider returns, and ends in one of the three
    ways of [provider_summary]. *)
Lemma huggingface_run (w : World) (prompt : pystr) (hf_token : pyval)
    (model output_dir : pystr) (m : Machine) :
  provider_summary w (Call_huggingface prompt hf_token model output_dir)
    (path_huggingface w prompt output_dir)
    (received_huggingface w (huggingface_request prompt hf_token model))
    m (generate_image_huggingface w prompt hf_token model output_dir m).
Proof.
  run_script.
  all: unfold provider_summary, path_huggingface, received_huggingface,
         huggingface_request; reduce; flatten_trace;
       eexists; (split; [reflexivity|]); (split; [reflexivity|]).
  all: try (left; split; [reflexivity|]; split; [reflexivity|]; left; reflexivity).
  all: try (left; split; [reflexivity|]; split; [reflexivity|]; right;
            eexists _, _, _; split; [eassumption|]; split; [eassumption|];
            apply insert_insert_eq).
  all: right; eexists; split; [reflexivity|]; split;
       [|split; [reflexivity | apply insert_insert_eq]].
  all: eexists _, _; split; [eassumption|]; split; [|reflexivity].
  all: match goal with
       | H : negb (?z =? 200)%Z = false |- _ =>
         apply negb_false_iff, Z.eqb_eq in H; exact H
       end.
Qed.

(** Every call of the paid provider returns, likewise. *)
Lemma openai_run (w : World) (prompt : pystr) (api_key : pyval) (size : Size)
    (quality : Quality) (model : Model) (output_dir : pystr) (m : Machine) :
  provider_summary w (Call_openai prompt api_key size quality model output_dir)
    (path_openai w prompt output_dir) (received_openai w)
    m (generate_image_openai w prompt api_key size quality model output_dir m).
Proof.
  run_script.
  all: unfold provider_summary, path_openai, received_openai; reduce;
       flatten_trace;
       eexists; (split; [reflexivity|]); (split; [reflexivity|]).
  all: try (left; split; [reflexivity|]; split; [reflexivity|]; left; reflexivity).
  all: try (left; split; [reflexivity|]; split; [reflexivity|]; right;
            eexists _, _, _; split; [eassumption|]; split; [eassumption|];
            apply insert_insert_eq).
  all: right; eexists; split; [reflexivity|]; split;
       [|split; [reflexivity | apply insert_insert_eq]].
  all: eexists; eassumption.
Qed.

(** The generation request of the paid provider goes out once, with
    [request_params]. *)
Lemma openai_request (w : World) (prompt : pystr) (api_key : pyval) (size : Size)
    (quality : Quality) (model : Model) (output_dir : pystr) (m : Machine) :
  generation_requests
    [ImagesGenerate api_key (request_params prompt size quality model)]
    m (generate_image_openai w prompt api_key size quality model output_dir m).
Proof.
  run_script.
  all: unfold generation_requests; reduce; flatten_trace;
       eexists; (split; [reflexivity|]); reflexivity.
Qed.

(** The free provider sends no generation request to the paid one. *)
Lemma huggingface_request_free (w : World) (prompt : pystr) (hf_token : pyval)
    (model output_dir : pystr) (m : Machine) :
  generation_requests []
    m (generate_image_huggingface w prompt hf_token model output_dir m).
Proof.
  run_script.
  all: unfold generation_requests; reduce; flatten_trace;
       eexists; (split; [reflexivity|]); reflexivity.
Qed.

End Providers.

(* ===================================================================== *)
(** ** Provider selection                                                 *)
(* ===================================================================== *)

Section Selection.

Variable w : World.

Lemma after_nil (m : Machine) : after m [] = m.
Proof. destruct m. unfold after. cbn. rewrite app_nil_r. reflexivity. Qed.

(** The correction step, as a function: the corrected arguments and the
    warnings printed. *)
Lemma validate_parameters_run (args : Args) (m : Machine) :
  validate_parameters args m = (inr (corrected args), after m (warnings args)).
Proof.
  destruct args as [p pr hm sz q md dir], m as [t fs n].
  unfold validate_parameters, after, warnings, corrected, bind, ret, print,
    emit, modify.
  destruct md, q, sz; cbn; rewrite ?app_nil_r, <- ?app_assoc; reflexivity.
Qed.

(** Modes [auto] and [huggingface] without a token: messages, status 1. *)
Lemma selection_missing_huggingface (args : Args) (keys : Keys) (m : Machine) :
  provider args <> Openai ->
  truthy (huggingface keys) = false ->
  provider_selection w args keys m
  = (inl (SystemExit 1), after m (missing_credential args)).
Proof.
  intros Hp Hk. destruct args as [p pr hm sz q md dir].
  unfold provider_selection, when, bind, print, emit, modify, sys_exit, raise,
    after, missing_credential.
  cbn [provider prompt]. rewrite Hk.
  destruct pr; [| |cbn in Hp; congruence]; cbn; rewrite <- ?app_assoc; reflexivity.
Qed.

(** Modes [auto] and [huggingface] with a token: one call of the free
    provider, and nothing else than the closing messages. *)
Lemma selection_huggingface (args : Args) (keys : Keys) (m : Machine) :
  provider args <> Openai ->
  truthy (huggingface keys) = true ->
  provider_selection w args keys m
  = conclude (huggingface_failed args)
      (generate_image_huggingface w (prompt args) (huggingface keys)
         (hf_model args) (output_dir args) m).
Proof.
  intros Hp Hk. destruct args as [p pr hm sz q md dir].
  unfold provider_selection, when, bind, ret, conclude, huggingface_failed,
    after, print, emit, modify, sys_exit, raise.
  destruct pr; [| |cbn in Hp; congruence];
    cbn [provider prompt hf_model output_dir provider_eqb orb]; rewrite Hk;
    destruct (generate_image_huggingface w p (huggingface keys) hm dir m)
      as [[e|result] m']; try reflexivity;
    destruct (truthy result); cbn; rewrite <- ?app_assoc; reflexivity.
Qed.

(** Mode [openai] without a key: messages, status 1. *)
Lemma selection_missing_openai (args : Args) (keys : Keys) (m : Machine) :
  provider args = Openai ->
  truthy (openai keys) = false ->
  provider_selection w args keys m
  = (inl (SystemExit 1), after m (missing_credential args)).
Proof.
  intros Hp Hk. destruct args as [p pr hm sz q md dir]. cbn in Hp. subst pr.
  unfold provider_selection, when, bind, print, emit, modify, sys_exit, raise,
    after, missing_credential.
  cbn. rewrite Hk. cbn. rewrite <- ?app_assoc. reflexivity.
Qed.

(** Mode [openai] with a key: the correction step, then one call of the
    paid provider with the corrected arguments. *)
Lemma selection_openai (args : Args) (keys : Keys) (m : Machine) :
  provider args = Openai ->
  truthy (openai keys) = true ->
  provider_selection w args keys m
  = conclude [Print (nl ++ u "❌ Failed to generate image")]
      (generate_image_openai w (prompt args) (openai keys)
         (size (corrected args)) (quality (corrected args)) (model args)
         (output_dir args) (after m (warnings args))).
Proof.
  intros Hp Hk.
  assert (Hfields : prompt (corrected args) = prompt args
                    /\ model (corrected args) = model args
                    /\ output_dir (corrected args) = output_dir args).
  { destruct args as [p pr hm sz q md dir]. destruct md; repeat split. }
  destruct Hfields as (Hprompt & Hmodel & Hdir).
  unfold provider_selection, when, bind, ret. rewrite Hp.
  cbn [provider_eqb orb]. rewrite Hk. cbn [negb].
  rewrite validate_parameters_run, Hprompt, Hmodel, Hdir.
  destruct (generate_image_openai w (prompt args) (openai keys)
              (size (corrected args)) (quality (corrected args)) (model args)
              (output_dir args) (after m (warnings args))) as [[e|result] m'].
  - reflexivity.
  - unfold conclude, after, print, emit, modify, sys_exit, raise.
    destruct (truthy result); reflexivity.
Qed.

End Selection.

(* ===================================================================== *)
(** ** The report of a run                                                *)
(* ===================================================================== *)

Section Report.

Variable w : World.

(** [main] loads the credentials, which never fails, and goes on to the
    provider selection. *)
Lemma run_selection (args : Args) :
  exists keys,
    load_api_keys (environ w) (env_file w) (cursor_config w) = inr keys
    /\ run w args =
       (let '(r, m) := provider_selection w args keys (initial w) in
        (exit_status r, m)).
Proof.
  eexists. split; [apply load_api_keys_run|].
  unfold run, main. rewrite load_api_keys_run. reflexivity.
Qed.

(** A provider call seen from [main]: the summary of the call, the
    generation requests it sent, and how [main] concludes. *)
Lemma conclude_report (call : event) (path : pystr) (got : pybytes -> Prop)
    (requests failure before : list event)
    (res : (exn + pyval) * Machine) (x : exn + unit) (mf : Machine) :
  is_images_generate call = false ->
  truthy (PStr path) = true ->
  provider_summary w call path got (after (initial w) before) res ->
  generation_requests requests (after (initial w) before) res ->
  conclude failure res = (x, mf) ->
  exists new,
    count is_provider_call new = 0%nat
    /\ only is_images_generate new = requests
    /\ ((exit_status x = 1%Z
         /\ trace mf = before ++ call :: new ++ failure
         /\ count is_written new = 0%nat
         /\ (files mf = disk w
             \/ exists data n e,
                  open_wb w path = None /\ write w path data = Some (n, e)
                  /\ files mf = <[path := take n data]> (disk w)))
        \/ (exists data,
              exit_status x = 0%Z
              /\ trace mf = before ++ call :: new
              /\ got data
              /\ only is_written new = [Written path data]
              /\ files mf = <[path := data]> (disk w))).
Proof.
  intros Hcall Hpath Hs Hq Hx. destruct res as [r m'].
  destruct Hs as (new & Ht & Hc & Hend). destruct Hq as (new' & Ht' & Hg).
  cbn [after initial trace files app] in *.
  rewrite Ht in Ht'. apply app_inv_head in Ht'. subst new'.
  cbn [only] in Hg. rewrite Hcall in Hg.
  exists new. split; [exact Hc|]. split; [exact Hg|].
  destruct Hend as [(-> & Hw & Hf) | (data & -> & Hgot & Hw & Hf)].
  - left. cbn [conclude truthy after] in Hx. injection Hx as <- <-.
    cbn [exit_status after trace files]. rewrite Ht, <- app_assoc. cbn [app]. auto.
  - right. exists data. cbn [conclude] in Hx. rewrite Hpath in Hx.
    injection Hx as <- <-. cbn [exit_status]. auto.
Qed.

(** The prints of [main] are no provider calls, requests or writes. *)
Lemma warnings_quiet (args : Args) :
  count is_provider_call (warnings args) = 0%nat
  /\ count is_written (warnings args) = 0%nat
  /\ only is_images_generate (warnings args) = [].
Proof.
  unfold warnings. destruct (model args), (quality args), (size args);
    repeat split.
Qed.

Lemma failure_messages_quiet (args : Args) :
  count is_provider_call (failure_messages args) = 0%nat
  /\ count is_written (failure_messages args) = 0%nat
  /\ only is_images_generate (failure_messages args) = [].
Proof.
  unfold failure_messages, huggingface_failed. destruct (provider args);
    repeat split.
Qed.

Lemma missing_credential_quiet (args : Args) :
  count is_provider_call (missing_credential args) = 0%nat
  /\ count is_written (missing_credential args) = 0%nat
  /\ only is_images_generate (missing_credential args) = [].
Proof.
  unfold missing_credential. destruct (provider args); repeat split.
Qed.

(** Every run has a report. *)
Lemma run_report_holds (args : Args) :
  exists keys,
    load_api_keys (environ w) (env_file w) (cursor_config w) = inr keys
    /\ run_report w args keys.
Proof.
  destruct (run_selection args) as (keys & Hload & Hrun).
  exists keys. split; [exact Hload|].
  unfold run_report, exit_code, final, expected_call, expected_requests,
    expected_path, received, lead, failure_messages.
  rewrite Hrun. clear Hrun.
  destruct (provider args) eqn:Hp.
  1, 2: destruct (truthy (huggingface keys)) eqn:Hk;
    [ rewrite selection_huggingface by congruence;
      destruct (conclude _ _) as [x mf] eqn:Hx; cbn [fst snd];
      eapply (conclude_report _ _ _ _ _ []);
        [ reflexivity | apply truthy_joinpath | apply huggingface_run
        | apply huggingface_request_free | exact Hx ]
    | rewrite selection_missing_huggingface by congruence;
      cbn [fst snd exit_status after initial trace files app]; auto ].
  destruct (truthy (openai keys)) eqn:Hk.
  - rewrite selection_openai by assumption.
    destruct (conclude _ _) as [x mf] eqn:Hx; cbn [fst snd].
    eapply conclude_report;
      [ reflexivity | apply truthy_joinpath | apply openai_run
      | apply openai_request | exact Hx ].
  - rewrite selection_missing_openai by assumption.
    cbn [fst snd exit_status after initial trace files app]. auto.
Qed.

End Report.

(* ===================================================================== *)
(** ** The free provider: one retry                                       *)
(* ===================================================================== *)



(* ===================================================================== *)
(** ** Reading a report                                                   *)
(* ===================================================================== *)

Section Reading.

Lemma in_only (p : event -> bool) (t : list event) (e : event) :
  In e (only p t) <-> In e t /\ p e = true.
Proof.
  induction t as [|x t IH]; simpl; [tauto|].
  destruct (p x) eqn:Hx; simpl; rewrite IH; split.
  - intros [->|[Hin He]]; auto.
  - intros [[->|Hin] He]; auto.
  - intros [Hin He]; auto.
  - intros [[->|Hin] He]; [congruence | auto].
Qed.

Lemma only_nil_count (p : event -> bool) (t : list event) :
  count p t = 0%nat -> only p t = [].
Proof. rewrite count_only. apply length_zero_iff_nil. Qed.


Lemma expected_call_is_call (args : Args) (keys : Keys) (call : event) :
  expected_call args keys = Some call ->
  is_provider_call call = true /\ is_images_generate call = false
  /\ is_written call = false.
Proof.
  unfold expected_call.
  destruct (provider args), (truthy (huggingface keys)), (truthy (openai keys));
    intros H; inversion H; repeat split.
Qed.

(** The provider calls and the generation requests of a run are those its
    mode and credentials prescribe. *)
Lemma run_calls (w : World) (args : Args) (keys : Keys) :
  run_report w args keys ->
  only is_provider_call (trace (final w args))
  = match expected_call args keys with Some call => [call] | None => [] end
  /\ only is_images_generate (trace (final w args)) = expected_requests args keys.
Proof.
  unfold run_report.
  destruct (warnings_quiet args) as (Hw1 & Hw2 & Hw3).
  destruct (failure_messages_quiet args) as (Hf1 & Hf2 & Hf3).
  destruct (missing_credential_quiet args) as (Hm1 & Hm2 & Hm3).
  assert (Hlead : only is_provider_call (lead args) = []
                  /\ only is_images_generate (lead args) = []).
  { unfold lead. destruct (provider args); split; auto using only_nil_count. }
  destruct Hlead as [Hl1 Hl2].
  destruct (expected_call args keys) as [call|] eqn:Hcall.
  - destruct (expected_call_is_call _ _ _ Hcall) as (Hc1 & Hc2 & Hc3).
    intros (new & Hn & Hg & [(_ & -> & _) | (data & _ & -> & _)]).
    + rewrite !only_app, Hl1, Hl2. cbn [only app]. rewrite Hc1, Hc2, !only_app.
      rewrite (only_nil_count _ _ Hn), (only_nil_count _ _ Hf1), Hg, Hf3.
      rewrite !app_nil_r. auto.
    + rewrite !only_app, Hl1, Hl2. cbn [only app]. rewrite Hc1, Hc2.
      rewrite (only_nil_count _ _ Hn), Hg. auto.
  - intros (_ & -> & _). rewrite (only_nil_count _ _ Hm1), Hm3. split; [reflexivity|].
    unfold expected_call, expected_requests in *.
    destruct (provider args), (truthy (huggingface keys)), (truthy (openai keys));
      congruence.
Qed.


End Reading.

(* ===================================================================== *)
(** ** Credentials: the claims                                            *)
(* ===================================================================== *)





(** The four source combinations of the specification, for the free
    provider's token: environment only, [.env] only, configuration file
    only, and all three at once (the environment wins). *)
Example precedence_of_sources :
  let env := Examples.with_hf_token in
  let file := Some [u "# keys"; u "HF_TOKEN=from_file" ++ nl] in
  let config := Parsed (PDict (<[u "env" :=
                  PDict (<[u "HF_TOKEN" := PStr (u "from_config")]> ∅)]> ∅)) in
  let token t := inr {| openai := PNone; huggingface := t |} in
  load_api_keys env None Absent = token (PStr (u "hf_abc"))
  /\ load_api_keys ∅ file Absent = token (PStr (u "from_file"))
  /\ load_api_keys ∅ None config = token (PStr (u "from_config"))
  /\ load_api_keys env file config = token (PStr (u "hf_abc"))
  /\ load_api_keys ∅ file config = token (PStr (u "from_file"))
  /\ load_api_keys ∅ None Absent = token PNone.
Proof. vm_compute. repeat split. Qed.

(* ===================================================================== *)
(** ** Parameter correction: the claims                                   *)
(* ===================================================================== *)

(** C8. The correction step is idempotent: run on its own result it
    returns the same arguments again and prints nothing, so that quality
    and size are changed by the first application only. *)
Theorem correction_idempotent (args : Args) (m : Machine) :
  exists args1 m1,
    validate_parameters args m = (inr args1, m1)
    /\ validate_parameters args1 m1 = (inr args1, m1)
    /\ args1 = corrected args.
Proof.
  exists (corrected args), (after m (warnings args)).
  split; [apply validate_parameters_run|]. split; [|reflexivity].
  rewrite validate_parameters_run.
  assert (Hc : corrected (corrected args) = corrected args
               /\ warnings (corrected args) = []).
  { destruct args as [p pr hm sz q md dir]. destruct md, q, sz; split; reflexivity. }
  destruct Hc as [-> ->]. rewrite after_nil. reflexivity.
Qed.

Section Requests.

Lemma request_params_quality (prompt : pystr) (size : Size) (quality : Quality)
    (model : Model) :
  request_params prompt size quality model !! u "quality"
  = match model with
    | Dall_e_3 => Some (PStr (quality_str quality))
    | Dall_e_2 => None
    end.
Proof. destruct model; vm_compute; reflexivity. Qed.

End Requests.

(** C9. Every generation request that reaches the paid provider carries
    the [quality] field if and only if the model is [dall-e-3]; for
    [dall-e-2] the request is the same whatever quality was asked for,
    corrected or not. *)
Theorem quality_only_for_dall_e_3 (w : World) (args : Args) (api_key : pyval)
    (params : gmap pystr pyval) :
  In (ImagesGenerate api_key params) (trace (final w args)) ->
  params = request_params (prompt args) (size (corrected args))
             (quality (corrected args)) (model args)
  /\ (is_Some (params !! u "quality") <-> model args = Dall_e_3)
  /\ (model args = Dall_e_2 ->
      forall q, params = request_params (prompt args) (size (corrected args))
                           q Dall_e_2).
Proof.
  intros Hin.
  destruct (run_report_holds w args) as (keys & _ & Hrep).
  destruct (run_calls w args keys Hrep) as [_ Hreq].
  assert (Hin' : In (ImagesGenerate api_key params)
                   (only is_images_generate (trace (final w args)))).
  { apply in_only. split; [exact Hin | reflexivity]. }
  rewrite Hreq in Hin'. unfold expected_requests in Hin'.
  assert (Hp : params = request_params (prompt args) (size (corrected args))
                          (quality (corrected args)) (model args)).
  { destruct (provider args), (truthy (openai keys)); cbn [In] in Hin';
      try tauto. destruct Hin' as [Heq|[]]. congruence. }
  split; [exact Hp|]. subst params. rewrite request_params_quality. split.
  - destruct (model args); split; intros H; try reflexivity; try discriminate;
      eauto. destruct H as [? H]. discriminate.
  - intros Hm q. rewrite Hm. reflexivity.
Qed.

(** C9, on an example: with [--model dall-e-2 --quality hd] the request
    that goes out has no [quality] field. *)
Lemma quality_only_for_dall_e_3_witness :
  let args := Examples.cat Openai Hd S1024x1024 Dall_e_2 in
  let params := request_params (prompt args) S1024x1024 Standard Dall_e_2 in
  In (ImagesGenerate (PStr (u "sk-abc")) params) (trace (final Examples.openai_ok args))
  /\ params !! u "quality" = None
  /\ (is_Some (params !! u "quality") <-> model args = Dall_e_3).
Proof.
  intros args params.
  assert (Hin : In (ImagesGenerate (PStr (u "sk-abc")) params)
                  (trace (final Examples.openai_ok args))).
  { vm_compute. find_event. }
  split; [exact Hin|]. split; [reflexivity|].
  apply (quality_only_for_dall_e_3 Examples.openai_ok args _ _ Hin).
Defined.

(* ===================================================================== *)
(** ** Provider selection: the claims                                     *)
(* ===================================================================== *)

Section Calls.




End Calls.






(* ===================================================================== *)
(** ** Saved files: the claims                                            *)
(* ===================================================================== *)

Section Saving.


End Saving.


(** A failed call can leave a file behind: when writing the opened file
    raises, the call returns [None] and what was written stays on disk. *)
Example failed_write_leaves_file :
  let w := Examples.hf_disk_full in
  let res := generate_image_huggingface w (u "cat") (PStr (u "hf_abc"))
               (u "black-forest-labs/FLUX.1-schnell") (u "out") (initial w) in
  fst res = inr PNone
  /\ files (snd res) !! path_huggingface w (u "cat") (u "out")
     = Some (take 2 Examples.png).
Proof. vm_compute. split; reflexivity. Qed.


(* ===================================================================== *)
(** ** File names: the claims                                             *)
(* ===================================================================== *)

Section Names.

Lemma drop_spaces_length (s : pystr) : (length (drop_spaces s) <= length s)%nat.
Proof.
  induction s as [|c s IH]; simpl; [lia|].
  destruct (c =? 32); simpl; lia.
Qed.

Lemma trim_spaces_length (s : pystr) : (length (trim_spaces s) <= length s)%nat.
Proof.
  unfold trim_spaces. rewrite length_rev.
  etransitivity; [apply drop_spaces_length|].
  rewrite length_rev. apply drop_spaces_length.
Qed.

(** [strip()] after the character map removes the spaces at both ends. *)
Lemma strip_map_kept (s : pystr) :
  strip (map (fun c => if kept c then c else 95) s)
  = map (fun c => if kept c then c else 95) (trim_spaces s).
Proof.
  unfold strip, rstrip, trim_spaces.
  rewrite lstrip_map_kept, <- map_rev, lstrip_map_kept, map_rev. reflexivity.
Qed.

(** The sanitized prefix, in the words of the specification. *)
Lemma safe_prompt_sanitized (prompt : pystr) : safe_prompt prompt = sanitized prompt.
Proof.
  unfold safe_prompt, sanitized, prefix.
  rewrite strip_map_kept. apply replace_map_kept.
Qed.

Lemma sanitize_char_allowed (c : N) :
  ascii_isalnum (sanitize_char c) = true
  \/ sanitize_char c = 45 \/ sanitize_char c = 95.
Proof.
  unfold sanitize_char.
  destruct (isascii c); cbn [andb]; [|auto].
  destruct (ascii_isalnum c) eqn:Ha; cbn [orb]; [auto|].
  destruct (N.eqb_spec c 45); cbn [orb]; [auto|].
  destruct (N.eqb_spec c 95); auto.
Qed.

End Names.


(** The [_HF_] of a file name does not tell the providers apart by itself:
    the paid provider's file for the prompt ["HF_cat"] has the name of the
    free provider's file for the prompt ["cat"]. *)
Example hf_infix_ambiguous (timestamp : pystr) :
  filename_openai timestamp (u "HF_cat") = filename_huggingface timestamp (u "cat").
Proof.
  unfold filename_openai, filename_huggingface. f_equal.
Qed.



(* ===================================================================== *)
(** ** Runs of the example worlds                                         *)
(* ===================================================================== *)


(** The exit status of four runs: a picture from the free provider, a
    picture from the paid provider, a failing free provider, and no
    credentials. *)
Example exit_status_examples :
  exit_code Examples.hf_ok (Examples.cat Huggingface Standard S1024x1024 Dall_e_2) = 0%Z
  /\ exit_code Examples.openai_ok (Examples.cat Openai Hd S1792x1024 Dall_e_2) = 0%Z
  /\ exit_code Examples.hf_loading_then_error
       (Examples.cat Huggingface Standard S1024x1024 Dall_e_2) = 1%Z
  /\ exit_code Examples.no_credentials
       (Examples.cat Openai Standard S1024x1024 Dall_e_3) = 1%Z
  /\ exit_code Examples.hf_disk_full
       (Examples.cat Auto Standard S1024x1024 Dall_e_2) = 1%Z.
Proof. vm_compute. repeat split. Qed.
(* ===================================================================== *)
(** ** The steps of a provider call                                       *)
(* ===================================================================== *)



Section Steps.



End Steps.

(* ===================================================================== *)
(** ** Further properties of the provider functions                       *)
(* ===================================================================== *)





(** X5. A provider call never touches a file other than its own output
    file: whatever the outcome, every other path of the disk holds what it
    held before. *)
Theorem other_files_untouched (w : World) (prompt : pystr)
    (hf_token api_key : pyval) (hf_model : pystr) (size : Size)
    (quality : Quality) (model : Model) (output_dir : pystr) (m : Machine)
    (p : pystr) :
  (p <> path_huggingface w prompt output_dir ->
   files (snd (generate_image_huggingface w prompt hf_token hf_model
                 output_dir m)) !! p = files m !! p)
  /\ (p <> path_openai w prompt output_dir ->
      files (snd (generate_image_openai w prompt api_key size quality model
                    output_dir m)) !! p = files m !! p).
Proof.
  split; intros Hp.
  - pose proof (huggingface_run w prompt hf_token hf_model output_dir m) as H.
    destruct (generate_image_huggingface _ _ _ _ _ _) as [r m']. cbn [snd].
    destruct H as (new & _ & _ & [(_ & _ & [-> | (data & n & e & _ & _ & ->)])
                                 | (data & _ & _ & _ & ->)]);
      rewrite ?lookup_insert_ne by congruence; reflexivity.
  - pose proof (openai_run w prompt api_key size quality model output_dir m) as H.
    destruct (generate_image_openai _ _ _ _ _ _ _ _) as [r m']. cbn [snd].
    destruct H as (new & _ & _ & [(_ & _ & [-> | (data & n & e & _ & _ & ->)])
                                 | (data & _ & _ & _ & ->)]);
      rewrite ?lookup_insert_ne by congruence; reflexivity.
Qed.

(** X5, on an example: a successful call of the free provider on a disk
    that holds another file. *)
Lemma other_files_untouched_witness :
  let w := Examples.hf_ok in
  let m := {| trace := []; files := <[u "notes.txt" := Examples.png]> ∅;
              posts := 0 |} in
  u "notes.txt" <> path_huggingface w (u "cat") (u "out")
  /\ files (snd (generate_image_huggingface w (u "cat") (PStr (u "hf_abc"))
                   (u "model") (u "out") m)) !! u "notes.txt"
     = Some Examples.png.
Proof.
  intros w m.
  assert (Hp : u "notes.txt" <> path_huggingface w (u "cat") (u "out")).
  { vm_compute. discriminate. }
  split; [exact Hp|].
  destruct (other_files_untouched w (u "cat") (PStr (u "hf_abc")) PNone
              (u "model") S1024x1024 Standard Dall_e_2 (u "out") m (u "notes.txt"))
    as [H _].
  rewrite (H Hp). reflexivity.
Defined.

(* ===================================================================== *)
(** ** Further properties of a run                                        *)
(* ===================================================================== *)

Section Run.

Variable w : World.




End Run.


(** X7. A run reads only the options and the credential of its mode:
    two command lines that agree on the mode, the prompt, the output
    directory and the options of that mode ([--size], [--quality] and
    [--model] for [openai], [--hf-model] for the two others) behave alike,
    and so do two credential sets that agree on the credential of the
    mode. So the DALL-E options and the OpenAI key have no effect under
    [auto] and [huggingface], and [--hf-model] and the HuggingFace token
    have none under [openai]. *)
Theorem mode_reads_its_own_inputs (w : World) (a b : Args) :
  same_for_mode a b ->
  run w a = run w b
  /\ forall k1 k2 m,
       same_credential (provider a) k1 k2 ->
       provider_selection w a k1 m = provider_selection w b k2 m.
Proof.
  intros Hab.
  assert (Hsel : forall k1 k2 m,
             same_credential (provider a) k1 k2 ->
             provider_selection w a k1 m = provider_selection w b k2 m).
  { intros k1 k2 m Hk.
    destruct Hab as (Hp & Hprompt & Hdir & Hopt).
    unfold same_credential in Hk.
    destruct (provider a) eqn:Hpa.
    1, 2: destruct (truthy (huggingface k1)) eqn:Ht;
      [ rewrite !selection_huggingface by congruence;
        unfold huggingface_failed;
        rewrite <- Hprompt, <- Hk, <- Hopt, <- Hdir, <- Hp, ?Hpa; reflexivity
      | rewrite !selection_missing_huggingface by congruence;
        unfold missing_credential; rewrite <- Hp, <- ?Hprompt, ?Hpa; reflexivity ].
    destruct Hopt as (Hsize & Hquality & Hmodel).
    assert (Hc : size (corrected a) = size (corrected b)
                 /\ quality (corrected a) = quality (corrected b)
                 /\ warnings a = warnings b).
    { unfold corrected, warnings. rewrite <- Hmodel.
      destruct (model a); cbn [size quality set_size set_quality];
        rewrite <- ?Hsize, <- ?Hquality; repeat split. }
    destruct Hc as (Hcs & Hcq & Hcw).
    destruct (truthy (openai k1)) eqn:Ht.
    - rewrite !selection_openai by congruence.
      rewrite <- Hprompt, <- Hk, <- Hcs, <- Hcq, <- Hcw, <- Hmodel, <- Hdir.
      reflexivity.
    - rewrite !selection_missing_openai by congruence.
      unfold missing_credential. rewrite <- Hp, <- ?Hprompt, ?Hpa. reflexivity. }
  split; [|exact Hsel].
  unfold run, main.
  destruct (load_api_keys (environ w) (env_file w) (cursor_config w)) as [e|keys];
    [reflexivity|].
  unfold bind, ret. rewrite (Hsel keys keys (initial w)); [reflexivity|].
  unfold same_credential. destruct (provider a); reflexivity.
Qed.

(** X7, on an example: in mode [huggingface] the DALL-E options do not
    matter. *)
Lemma mode_reads_its_own_inputs_witness :
  let a := Examples.cat Huggingface Standard S1024x1024 Dall_e_2 in
  let b := Examples.cat Huggingface Hd S1792x1024 Dall_e_3 in
  same_for_mode a b /\ run Examples.hf_ok a = run Examples.hf_ok b.
Proof.
  intros a b.
  assert (H : same_for_mode a b).
  { unfold same_for_mode, a, b, Examples.cat.
    cbn [provider prompt output_dir hf_model]. repeat split. }
  split; [exact H|].
  exact (proj1 (mode_reads_its_own_inputs Examples.hf_ok a b H)).
Defined.

(** X8. The correction step changes only [quality] and [size]. With
    [dall-e-2] it leaves quality [standard] and a size that is not one of
    the two large ones; with [dall-e-3] it changes and prints nothing, the
    sizes 256x256 and 512x512 included. It prints the quality warning
    exactly when it changes the quality, the size warning exactly when it
    changes the size, and nothing else. *)
Theorem correction_postcondition (args : Args) (m : Machine) :
  exists args' new,
    validate_parameters args m = (inr args', after m new)
    /\ prompt args' = prompt args /\ provider args' = provider args
    /\ hf_model args' = hf_model args /\ model args' = model args
    /\ output_dir args' = output_dir args
    /\ (model args = Dall_e_2 ->
        quality args' = Standard
        /\ size args' <> S1792x1024 /\ size args' <> S1024x1792)
    /\ (model args = Dall_e_3 -> args' = args /\ new = [])
    /\ new = (if quality_eqb (quality args') (quality args)
              then [] else [warning_quality])
             ++ (if size_eqb (size args') (size args) then [] else [warning_size]).
Proof.
  exists (corrected args), (warnings args).
  split; [apply validate_parameters_run|].
  destruct args as [p pr hm sz q md dir]. unfold corrected, warnings.
  cbn [model quality size].
  destruct md, q, sz; cbn; repeat split; congruence.
Qed.

(** X9. The generation request always asks for one image ([n] is 1) of
    the given model and size, and carries the prompt as it was typed,
    neither truncated nor sanitized; apart from [quality] it has no other
    field. *)
Theorem request_params_content (prompt : pystr) (size : Size)
    (quality : Quality) (model : Model) :
  let params := request_params prompt size quality model in
  params !! u "model" = Some (PStr (model_str model))
  /\ params !! u "prompt" = Some (PStr prompt)
  /\ params !! u "size" = Some (PStr (size_str size))
  /\ params !! u "n" = Some (PInt 1)
  /\ forall k,
       k <> u "model" -> k <> u "prompt" -> k <> u "size" -> k <> u "n" ->
       k <> u "quality" -> params !! k = None.
Proof.
  cbv zeta. unfold request_params.
  assert (Hne : u "model" <> u "prompt" /\ u "model" <> u "size"
                /\ u "model" <> u "n" /\ u "prompt" <> u "size"
                /\ u "prompt" <> u "n" /\ u "size" <> u "n"
                /\ u "quality" <> u "model" /\ u "quality" <> u "prompt"
                /\ u "quality" <> u "size" /\ u "quality" <> u "n").
  { repeat split; vm_compute; discriminate. }
  destruct Hne as (H1 & H2 & H3 & H4 & H5 & H6 & H7 & H8 & H9 & H10).
  destruct model; cbn [model_eqb];
    repeat split;
    try (intros k K1 K2 K3 K4 K5);
    repeat first [ rewrite lookup_insert_eq; reflexivity
                 | rewrite lookup_insert_ne by congruence
                 | apply lookup_empty ].
Qed.

(* ===================================================================== *)
(** ** Lines of the [.env] file                                           *)
(* ===================================================================== *)

Section EnvLines.

Lemma startswith_app (p v : pystr) : startswith (p ++ v) p = true.
Proof.
  induction p as [|c p IH]; [reflexivity|].
  cbn [app startswith]. rewrite N.eqb_refl. exact IH.
Qed.

(** [lstrip] stops at the first character that is not whitespace. *)
Lemma lstrip_app_stops (a b : pystr) :
  match b with c :: _ => isspace c = false | [] => False end ->
  lstrip (a ++ b) = lstrip a ++ b.
Proof.
  intros Hb. induction a as [|c a IH]; cbn [app lstrip].
  - apply lstrip_keeps. destruct b; [destruct Hb | exact Hb].
  - destruct (isspace c); [exact IH | reflexivity].
Qed.

Lemma rstrip_after (p v : pystr) :
  p <> [] ->
  forallb (fun c => negb (isspace c)) p = true ->
  rstrip (p ++ v) = p ++ rstrip v.
Proof.
  intros Hne Hp. unfold rstrip. rewrite rev_app_distr, lstrip_app_stops.
  - rewrite rev_app_distr, rev_involutive. reflexivity.
  - destruct (rev p) as [|c r] eqn:Hr.
    + apply Hne. rewrite <- (rev_involutive p), Hr. reflexivity.
    + rewrite forallb_forall in Hp. apply negb_true_iff, Hp, in_rev.
      rewrite Hr. left. reflexivity.
Qed.

Lemma strip_after (p v : pystr) :
  p <> [] ->
  forallb (fun c => negb (isspace c)) p = true ->
  strip (p ++ v) = p ++ rstrip v.
Proof.
  intros Hne Hp. unfold strip. rewrite (lstrip_keeps (p ++ v)).
  - apply rstrip_after; assumption.
  - destruct p as [|c p]; [congruence|]. cbn [forallb] in Hp.
    apply andb_prop in Hp as [Hc _]. apply negb_true_iff in Hc. exact Hc.
Qed.

Lemma value_after_key (p v : pystr) :
  p <> [] ->
  forallb (fun c => negb (isspace c)) p = true ->
  value_after p (p ++ v) = PStr (rstrip v).
Proof.
  intros Hne Hp. unfold value_after. rewrite strip_after by assumption.
  rewrite drop_app_length. reflexivity.
Qed.

End EnvLines.

(** X10. A line of the [.env] file that starts with one of the three
    names and [=] gives its credential the rest of the line without the
    whitespace at its end (the newline goes; whitespace after the [=],
    quotes and further [=] signs stay), unless the credential already has
    a value; the other credential is left as it is. The two names of the
    HuggingFace token are treated alike. *)
Theorem env_line_value (v : pystr) (keys : Keys) :
  env_line (u "OPENAI_API_KEY=" ++ v) keys
  = (inr tt, {| openai := py_or (openai keys) (PStr (rstrip v));
                huggingface := huggingface keys |})
  /\ env_line (u "HUGGINGFACE_API_KEY=" ++ v) keys
     = (inr tt, {| openai := openai keys;
                   huggingface := py_or (huggingface keys) (PStr (rstrip v)) |})
  /\ env_line (u "HF_TOKEN=" ++ v) keys
     = (inr tt, {| openai := openai keys;
                   huggingface := py_or (huggingface keys) (PStr (rstrip v)) |}).
Proof.
  rewrite !env_line_run. unfold env_file_openai, env_file_huggingface.
  cbn [flat_map]. rewrite !startswith_app.
  destruct (openai_line_not_huggingface _ (startswith_app (u "OPENAI_API_KEY=") v))
    as [-> ->].
  assert (H1 : startswith (u "HUGGINGFACE_API_KEY=" ++ v) (u "OPENAI_API_KEY=") = false)
    by reflexivity.
  assert (H2 : startswith (u "HF_TOKEN=" ++ v) (u "OPENAI_API_KEY=") = false)
    by reflexivity.
  assert (H3 : startswith (u "HF_TOKEN=" ++ v) (u "HUGGINGFACE_API_KEY=") = false)
    by reflexivity.
  rewrite H1, H2, H3.
  rewrite !value_after_key by (discriminate || reflexivity).
  cbn [app or_list]. repeat split.
Qed.

(** X11. The names are looked for at the very start of the raw line: a
    line whose first character is neither [O] nor [H] (an indented line, a
    comment, a line with [export] before the name) changes no credential
    and raises nothing. *)
Theorem env_line_ignores (c : N) (rest : pystr) (keys : Keys) :
  c <> 79 -> c <> 72 -> env_line (c :: rest) keys = (inr tt, keys).
Proof.
  intros Ho Hh. apply N.eqb_neq in Ho, Hh. rewrite N.eqb_sym in Ho, Hh.
  unfold env_line.
  assert (H1 : startswith (c :: rest) (u "OPENAI_API_KEY=") = false).
  { change (u "OPENAI_API_KEY=") with (79 :: u "PENAI_API_KEY=").
    cbn [startswith]. rewrite Ho. reflexivity. }
  assert (H2 : startswith (c :: rest) (u "HUGGINGFACE_API_KEY=") = false).
  { change (u "HUGGINGFACE_API_KEY=") with (72 :: u "UGGINGFACE_API_KEY=").
    cbn [startswith]. rewrite Hh. reflexivity. }
  assert (H3 : startswith (c :: rest) (u "HF_TOKEN=") = false).
  { change (u "HF_TOKEN=") with (72 :: u "F_TOKEN=").
    cbn [startswith]. rewrite Hh. reflexivity. }
  rewrite H1, H2, H3. reflexivity.
Qed.

(** X11, on an example: an indented line. *)
Lemma env_line_ignores_witness :
  env_line (32 :: u "OPENAI_API_KEY=sk-1") {| openai := PNone; huggingface := PNone |}
  = (inr tt, {| openai := PNone; huggingface := PNone |}).
Proof. apply (env_line_ignores 32); discriminate. Defined.

(* ===================================================================== *)
(** ** The sanitized prefix of a file name                                *)
(* ===================================================================== *)

Section Prefix.

Lemma allowed_not_space (c : N) : allowed c -> c <> 32.
Proof.
  intros [H | [-> | ->]]; [|discriminate ..].
  unfold ascii_isalnum in H.
  repeat (rewrite andb_true_iff in H || rewrite orb_true_iff in H).
  rewrite ?N.leb_le in H. lia.
Qed.

Lemma sanitize_char_keeps (c : N) : allowed c -> sanitize_char c = c.
Proof.
  intros [H | [-> | ->]]; [|reflexivity ..].
  unfold sanitize_char. rewrite H. cbn [orb].
  assert (Ha : isascii c = true); [|rewrite Ha; reflexivity].
  unfold ascii_isalnum in H. unfold isascii.
  repeat (rewrite andb_true_iff in H || rewrite orb_true_iff in H).
  rewrite ?N.leb_le in H. apply N.ltb_lt. lia.
Qed.

Lemma drop_spaces_keeps (s : pystr) :
  Forall (fun c => c <> 32) s -> drop_spaces s = s.
Proof.
  intros H. destruct H as [|c s Hc _]; [reflexivity|].
  cbn [drop_spaces]. apply N.eqb_neq in Hc. rewrite Hc. reflexivity.
Qed.

Lemma trim_spaces_keeps (s : pystr) :
  Forall (fun c => c <> 32) s -> trim_spaces s = s.
Proof.
  intros H. unfold trim_spaces. rewrite (drop_spaces_keeps s H).
  rewrite drop_spaces_keeps; [apply rev_involutive|].
  apply Forall_rev. exact H.
Qed.

Lemma sanitized_shape (p : pystr) :
  (length (sanitized p) <= 50)%nat /\ Forall allowed (sanitized p).
Proof.
  unfold sanitized. split.
  - rewrite length_map. etransitivity; [apply trim_spaces_length|].
    rewrite length_take. lia.
  - apply Forall_forall. intros c Hc. apply list_elem_of_In in Hc.
    apply in_map_iff in Hc as (c0 & <- & _).
    apply sanitize_char_allowed.
Qed.

Lemma sanitized_fixed (s : pystr) :
  (length s <= 50)%nat -> Forall allowed s -> sanitized s = s.
Proof.
  intros Hl Hs. unfold sanitized. rewrite take_ge by exact Hl.
  rewrite trim_spaces_keeps.
  - induction Hs as [|c s Hc Hs IH]; [reflexivity|].
    cbn [map]. rewrite (sanitize_char_keeps c Hc), IH; [reflexivity|].
    cbn [length] in Hl. lia.
  - eapply Forall_impl; [exact Hs|]. apply allowed_not_space.
Qed.

Lemma drop_spaces_spaces (s : pystr) :
  Forall (fun c => c = 32) (drop_spaces s) <-> Forall (fun c => c = 32) s.
Proof.
  induction s as [|c s IH]; [reflexivity|]. cbn [drop_spaces].
  destruct (N.eqb_spec c 32) as [->|Hc]; [|reflexivity].
  rewrite IH. split; intros H.
  - constructor; [reflexivity | exact H].
  - inversion H; assumption.
Qed.

Lemma drop_spaces_nil (s : pystr) :
  drop_spaces s = [] <-> Forall (fun c => c = 32) s.
Proof.
  induction s as [|c s IH]; [split; [constructor | reflexivity]|].
  cbn [drop_spaces]. destruct (N.eqb_spec c 32) as [->|Hc].
  - rewrite IH. split; intros H.
    + constructor; [reflexivity | exact H].
    + inversion H; assumption.
  - split; [discriminate|]. intros H. inversion H. contradiction.
Qed.

Lemma trim_spaces_nil (s : pystr) :
  trim_spaces s = [] <-> Forall (fun c => c = 32) s.
Proof.
  unfold trim_spaces. rewrite <- drop_spaces_spaces.
  split; intros H.
  - apply (f_equal (@rev N)) in H. rewrite rev_involutive in H. cbn in H.
    apply drop_spaces_nil in H. apply Forall_rev in H.
    rewrite rev_involutive in H. exact H.
  - apply Forall_rev in H. apply drop_spaces_nil in H. rewrite H. reflexivity.
Qed.

End Prefix.

(** X12. The prefix of a file name is stable: sanitizing it again changes
    nothing, and the prompts that are their own prefix are exactly the
    strings of at most 50 ASCII letters, digits, hyphens and underscores. *)
Theorem safe_prompt_fixed_points (s : pystr) :
  safe_prompt (safe_prompt s) = safe_prompt s
  /\ (safe_prompt s = s <-> (length s <= 50)%nat /\ Forall allowed s).
Proof.
  rewrite !safe_prompt_sanitized.
  destruct (sanitized_shape s) as [Hl Ha]. split.
  - apply sanitized_fixed; assumption.
  - split.
    + intros <-. split; assumption.
    + intros [Hl' Ha']. apply sanitized_fixed; assumption.
Qed.

(** X13. A prompt whose first 50 characters are all outside ASCII (a
    prompt in Cyrillic or Chinese without spaces, say) gives a prefix of
    underscores only, one for each of these characters. *)
Theorem safe_prompt_non_ascii (prompt : pystr) :
  Forall (fun c => 128 <= c) (take 50 prompt) ->
  safe_prompt prompt = map (fun _ => 95) (take 50 prompt).
Proof.
  intros H. rewrite safe_prompt_sanitized. unfold sanitized.
  rewrite trim_spaces_keeps.
  - induction H as [|c s Hc _ IH]; [reflexivity|].
    cbn [map]. rewrite IH. f_equal. unfold sanitize_char, isascii.
    apply N.ltb_ge in Hc. rewrite Hc. reflexivity.
  - eapply Forall_impl; [exact H|]. cbv beta. intros c Hc. lia.
Qed.

(** X13, on an example: the Russian word for cat. *)
Lemma safe_prompt_non_ascii_witness :
  Forall (fun c => 128 <= c) (take 50 (u "кот"))
  /\ safe_prompt (u "кот") = map (fun _ => 95) (take 50 (u "кот")).
Proof.
  assert (H : Forall (fun c => 128 <= c) (take 50 (u "кот"))).
  { vm_compute. repeat constructor; discriminate. }
  split; [exact H|]. apply (safe_prompt_non_ascii (u "кот") H).
Defined.

(** X14. The prefix is empty exactly when the first 50 characters of the
    prompt are all spaces (the empty prompt included); the file is then
    named by the timestamp alone. Other whitespace does not count: a tab
    gives an underscore. *)
Theorem safe_prompt_empty (prompt : pystr) :
  (safe_prompt prompt = [] <-> Forall (fun c => c = 32) (take 50 prompt))
  /\ safe_prompt [9] = [95].
Proof.
  split; [|reflexivity].
  rewrite safe_prompt_sanitized. unfold sanitized.
  rewrite <- trim_spaces_nil. split.
  - intros H. destruct (trim_spaces (take 50 prompt)); [reflexivity|discriminate].
  - intros ->. reflexivity.
Qed.
